(** * Database connection manager (internal/db/manager.go)

    A shallow embedding of the [DatabaseManager] of the Go boilerplate: the
    connect-with-retry loop, the two health checks, the metrics refresh and
    the shutdown path, followed by the properties the specification states
    about them.

    The manager talks to three things it does not own: the database server
    (through gorm and database/sql), the clock, and the Go scheduler.  They
    are modelled as follows.

    - The server is an environment [Env] of answer streams: what the i-th
      attempt to open a connection meets, how the i-th liveness probe is
      answered, what the i-th poll of the pool statistics returns and how
      the i-th close ends.  The environment is fixed for a run; the number
      of answers consumed so far is part of the [World].
    - The clock is the field [now] of the [World], in nanoseconds.  It only
      moves forward, and only inside the calls that wait: [time_Sleep] and
      [PingContext].
    - A [go f()] statement records the started routine in [spawned]; the
      routine itself is not run by the caller.  The read/write mutex is an
      explicit state, and every access to the guarded structures is logged
      in the [trace] together with the state the mutex was in. *)

From Stdlib Require Import ZArith List String Bool Lia.
Import ListNotations.

Local Open Scope string_scope.
Local Open Scope list_scope.
Local Open Scope Z_scope.

(** ** Go integers, durations and instants *)

(** Go's [int] and [int64] on the 64-bit targets the service is built for:
    signed, and wrapping silently on overflow. *)
Definition max_int : Z := 9223372036854775807.
Definition min_int : Z := -9223372036854775808.

Definition wrap_int (z : Z) : Z := (z + 9223372036854775808) mod 18446744073709551616 - 9223372036854775808.

(** [time.Duration] is an [int64] count of nanoseconds; [time.Time] is
    modelled as the nanoseconds since the Unix epoch. *)
Definition Duration := Z.
Definition Time := Z.

Definition Second : Duration := 1000000000.

(** The zero [time.Time] (January 1, year 1, 00:00 UTC), the value of
    [LastCheck] before the first health check. *)
Definition time_zero : Time := -62135596800 * Second.

(** [Time.Sub] does not wrap: it saturates at the largest and the smallest
    duration. *)
Definition saturate (z : Z) : Duration := Z.max min_int (Z.min max_int z).

Definition time_Sub (t u : Time) : Duration := saturate (t - u).

(** ** Errors *)

Inductive ErrorType : Type :=
  | ErrorTypeValidation | ErrorTypeNotFound | ErrorTypeUnauthorized
  | ErrorTypeForbidden | ErrorTypeConflict | ErrorTypeInternal
  | ErrorTypeExternal | ErrorTypeDatabase | ErrorTypeCache | ErrorTypeTimeout.

(** Modelled from the spec: the [errors] package (type [AppError], the
    constructor [DatabaseError] and the builders [WithOperation],
    [WithResource], [WithContext]) is not among the sources; the fields are
    those of the [AppError] struct listed in the project's README, restricted
    to the ones the manager sets.  A Go [error] is either an error of a
    library ([errorString], with the text its [Error()] method returns) or
    an [AppError]. *)
#[warnings="-register-all"]
Inductive error : Type :=
  | errorString (text : string)
  | AppError (type : ErrorType) (message : string) (cause : option error)
             (operation resource : string) (context : list (string * Z)).

Definition DatabaseError (message : string) (cause : option error) : error :=
  AppError ErrorTypeDatabase message cause EmptyString EmptyString [].

Definition WithOperation (operation : string) (e : error) : error :=
  match e with
  | AppError t m c _ r ctx => AppError t m c operation r ctx
  | errorString _ => e
  end.

Definition WithResource (resource : string) (e : error) : error :=
  match e with
  | AppError t m c o _ ctx => AppError t m c o resource ctx
  | errorString _ => e
  end.

Definition WithContext (key : string) (value : Z) (e : error) : error :=
  match e with
  | AppError t m c o r ctx => AppError t m c o r (ctx ++ [(key, value)])
  | errorString _ => e
  end.

(** [err.Error()]; for an [AppError], whose method is not among the sources,
    the text is taken to be its message. *)
Definition Error (e : error) : string :=
  match e with
  | errorString text => text
  | AppError _ message _ _ _ _ => message
  end.

Definition is_database_error (e : error) : bool :=
  match e with
  | AppError ErrorTypeDatabase _ _ _ _ _ => true
  | _ => false
  end.

Definition context_DeadlineExceeded : error := errorString "context deadline exceeded".

(** ** The data model of manager.go *)

Record HealthStatus : Type := mkHealthStatus {
  IsHealthy : bool;
  LastCheck : Time;
  LastError : string;
  ResponseTime : Duration;
  RetryCount : Z
}.

Record ConnectionMetrics : Type := mkConnectionMetrics {
  TotalConnections : Z;
  OpenConnections : Z;
  IdleConnections : Z;
  InUseConnections : Z;
  WaitCount : Z;
  WaitDuration : Duration;
  MaxOpenConnections : Z;
  MaxIdleConnections : Z
}.

(** Modelled from the spec: the [config] package is not among the sources;
    these are the fields and the two methods ([IsDebugMode],
    [ConnectionString]) of [config.Config] that manager.go reads, named as
    it names them.  The configuration is immutable after load. *)
Record Config : Type := mkConfig {
  DatabaseRetryAttempts : Z;
  DatabaseRetryDelay : Duration;
  DatabaseMaxOpenConns : Z;
  DatabaseMaxIdleConns : Z;
  DatabaseConnMaxLifetime : Duration;
  DatabaseConnMaxIdleTime : Duration;
  DatabaseConnectTimeout : Duration;
  DatabaseHealthTimeout : Duration;
  IsDebugMode : bool;
  ConnectionString : string
}.

(** [sql.DBStats], as far as [updateMetrics] reads it. *)
Record DBStats : Type := mkDBStats {
  stats_OpenConnections : Z;
  stats_Idle : Z;
  stats_InUse : Z;
  stats_WaitCount : Z;
  stats_WaitDuration : Duration
}.

(** A [*sql.DB] is named by the number of its pool.  A [*gorm.DB] carries
    what its method [DB()] returns: gorm decides it from the kind of
    connection pool the handle was opened with, which never changes. *)
Definition SqlDB := nat.

Record GormDB : Type := mkGormDB {
  gorm_id : nat;
  gorm_DB : SqlDB + error
}.

(** The read/write mutex [sync.RWMutex]. *)
Inductive RWMutex : Type :=
  | Unlocked
  | RLocked (readers : nat)   (* held in shared mode by [S readers] readers *)
  | Locked.                   (* held in exclusive mode *)

(** The pointer [dm.metrics] is an address in the store of the [World]. *)
Definition loc := nat.

Record DatabaseManager : Type := mkDatabaseManager {
  db : option GormDB;
  config : Config;
  healthStatus : HealthStatus;
  mu : RWMutex;
  metrics : loc
}.

(** ** The environment *)

(** How a liveness probe is answered: the server's answer would arrive after
    [rtt] with result [answer]; if the deadline of the context comes first,
    the call is woken up [wake] after the deadline (a Go timer never fires
    early). *)
Record PingResponse : Type := mkPingResponse {
  rtt : Duration;
  answer : option error;
  wake : Duration
}.

(** What an attempt to connect meets: [gorm.Open] fails, or it returns a
    handle whose first probe is answered by [first_ping]. *)
Inductive ConnectTarget : Type :=
  | OpenFails (err : error)
  | Opened (g : GormDB) (first_ping : PingResponse).

Record Env : Type := mkEnv {
  dial : nat -> ConnectTarget;
  probe : nat -> PingResponse;
  pool_stats : nat -> DBStats;
  pool_close : nat -> option error
}.

(** ** Observable events *)

Inductive HealthField : Type :=
  | F_IsHealthy | F_LastCheck | F_LastError | F_ResponseTime | F_RetryCount.

Inductive Task : Type :=
  | Task_HealthCheck
  | Task_startHealthCheck
  | Task_startMetricsCollection.

Inductive LogLevel : Type := gormlogger_Error | gormlogger_Info.

Inductive Event : Type :=
  | EvLogInfo (msg : string)
  | EvLogError (msg : string)
  | EvOpen (dsn : string) (level : LogLevel)       (* gorm.Open: one connection attempt *)
  | EvSetMaxOpenConns (n : Z)
  | EvSetMaxIdleConns (n : Z)
  | EvSetConnMaxLifetime (d : Duration)
  | EvSetConnMaxIdleTime (d : Duration)
  | EvPing (pool : SqlDB) (timeout : Duration)     (* sqlDB.PingContext *)
  | EvStats (pool : SqlDB)                         (* sqlDB.Stats *)
  | EvClose (pool : SqlDB)                         (* sqlDB.Close *)
  | EvSleep (d : Duration)                         (* time.Sleep *)
  | EvSpawn (t : Task)                             (* go f() *)
  | EvSentryCapture (attempt : Z)                  (* hub.CaptureException *)
  | EvWriteHealth (f : HealthField) (held : RWMutex)
  | EvReadHealth (held : RWMutex)
  | EvWriteMetrics (held : RWMutex)
  | EvReadMetrics (held : RWMutex).

Record World : Type := mkWorld {
  now : Time;
  trace : list Event;               (* oldest event first *)
  spawned : list Task;
  dials : nat;                      (* answers of [dial] consumed *)
  probes : nat;                     (* answers of [probe] consumed *)
  polls : nat;                      (* answers of [pool_stats] consumed *)
  closes : nat;                     (* answers of [pool_close] consumed *)
  heap : loc -> ConnectionMetrics;
  next_loc : loc
}.

(** ** The monad of manager methods

    A method runs on the manager it is called on and on the world.  It
    returns, panics (a nil dereference, an unlock of an unlocked mutex),
    waits for the mutex for ever, or exhausts the fuel of a loop. *)

Definition St : Type := DatabaseManager * World.

Inductive Res (A : Type) : Type :=
  | Ret (a : A) (s : St)
  | Panic (s : St)
  | Blocked (s : St)
  | OutOfFuel.

Arguments Ret {A} a s.
Arguments Panic {A} s.
Arguments Blocked {A} s.
Arguments OutOfFuel {A}.

Definition M (A : Type) : Type := St -> Res A.

Definition ret {A} (a : A) : M A := fun s => Ret a s.

Definition bind {A B} (m : M A) (k : A -> M B) : M B :=
  fun s =>
    match m s with
    | Ret a s' => k a s'
    | Panic s' => Panic s'
    | Blocked s' => Blocked s'
    | OutOfFuel => OutOfFuel
    end.

Declare Scope go_scope.
Delimit Scope go_scope with go.
Notation "x <- c1 ;; c2" := (bind c1 (fun x => c2))
  (at level 61, c1 at next level, right associativity) : go_scope.
Notation "c1 ;; c2" := (bind c1 (fun _ => c2))
  (at level 61, right associativity) : go_scope.
Local Open Scope go_scope.

Definition panic {A} : M A := fun s => Panic s.

(** [defer d] in front of [body]: [d] runs when [body] returns, after the
    returned value has been computed, and also when [body] panics. *)
Definition defer {A} (d : M unit) (body : M A) : M A :=
  fun s =>
    match body s with
    | Ret a s' =>
        match d s' with
        | Ret _ s'' => Ret a s''
        | Panic s'' => Panic s''
        | Blocked s'' => Blocked s''
        | OutOfFuel => OutOfFuel
        end
    | Panic s' =>
        match d s' with
        | Ret _ s'' => Panic s''
        | Panic s'' => Panic s''
        | Blocked s'' => Blocked s''
        | OutOfFuel => OutOfFuel
        end
    | Blocked s' => Blocked s'
    | OutOfFuel => OutOfFuel
    end.

(** *** Field updates *)

Definition set_db (v : option GormDB) (dm : DatabaseManager) : DatabaseManager :=
  mkDatabaseManager v (config dm) (healthStatus dm) (mu dm) (metrics dm).
Definition set_healthStatus (v : HealthStatus) (dm : DatabaseManager) : DatabaseManager :=
  mkDatabaseManager (db dm) (config dm) v (mu dm) (metrics dm).
Definition set_mu (v : RWMutex) (dm : DatabaseManager) : DatabaseManager :=
  mkDatabaseManager (db dm) (config dm) (healthStatus dm) v (metrics dm).

Definition set_IsHealthy (v : bool) (h : HealthStatus) : HealthStatus :=
  mkHealthStatus v (LastCheck h) (LastError h) (ResponseTime h) (RetryCount h).
Definition set_LastCheck (v : Time) (h : HealthStatus) : HealthStatus :=
  mkHealthStatus (IsHealthy h) v (LastError h) (ResponseTime h) (RetryCount h).
Definition set_LastError (v : string) (h : HealthStatus) : HealthStatus :=
  mkHealthStatus (IsHealthy h) (LastCheck h) v (ResponseTime h) (RetryCount h).
Definition set_ResponseTime (v : Duration) (h : HealthStatus) : HealthStatus :=
  mkHealthStatus (IsHealthy h) (LastCheck h) (LastError h) v (RetryCount h).
Definition set_RetryCount (v : Z) (h : HealthStatus) : HealthStatus :=
  mkHealthStatus (IsHealthy h) (LastCheck h) (LastError h) (ResponseTime h) v.

Definition set_now (v : Time) (w : World) : World :=
  mkWorld v (trace w) (spawned w) (dials w) (probes w) (polls w) (closes w) (heap w) (next_loc w).
Definition set_trace (v : list Event) (w : World) : World :=
  mkWorld (now w) v (spawned w) (dials w) (probes w) (polls w) (closes w) (heap w) (next_loc w).
Definition set_spawned (v : list Task) (w : World) : World :=
  mkWorld (now w) (trace w) v (dials w) (probes w) (polls w) (closes w) (heap w) (next_loc w).
Definition set_dials (v : nat) (w : World) : World :=
  mkWorld (now w) (trace w) (spawned w) v (probes w) (polls w) (closes w) (heap w) (next_loc w).
Definition set_probes (v : nat) (w : World) : World :=
  mkWorld (now w) (trace w) (spawned w) (dials w) v (polls w) (closes w) (heap w) (next_loc w).
Definition set_polls (v : nat) (w : World) : World :=
  mkWorld (now w) (trace w) (spawned w) (dials w) (probes w) v (closes w) (heap w) (next_loc w).
Definition set_closes (v : nat) (w : World) : World :=
  mkWorld (now w) (trace w) (spawned w) (dials w) (probes w) (polls w) v (heap w) (next_loc w).
Definition set_heap (v : loc -> ConnectionMetrics) (w : World) : World :=
  mkWorld (now w) (trace w) (spawned w) (dials w) (probes w) (polls w) (closes w) v (next_loc w).
Definition set_next_loc (v : loc) (w : World) : World :=
  mkWorld (now w) (trace w) (spawned w) (dials w) (probes w) (polls w) (closes w) (heap w) v.

Definition store (l : loc) (v : ConnectionMetrics) (h : loc -> ConnectionMetrics)
  : loc -> ConnectionMetrics :=
  fun l' => if Nat.eqb l' l then v else h l'.

Arguments store : simpl never.

(** *** Primitive actions *)

Definition emit (e : Event) : M unit :=
  fun '(dm, w) => Ret tt (dm, set_trace (trace w ++ [e]) w).

(** The clock is monotonic: waiting for a negative time is not waiting. *)
Definition advance (d : Duration) : M unit :=
  fun '(dm, w) => Ret tt (dm, set_now (now w + Z.max 0 d) w).

Definition time_Now : M Time := fun '(dm, w) => Ret (now w) (dm, w).

Definition time_Since (t : Time) : M Duration :=
  fun '(dm, w) => Ret (time_Sub (now w) t) (dm, w).

Definition time_Sleep (d : Duration) : M unit :=
  emit (EvSleep d) ;; advance d.

Definition logger_Info (msg : string) : M unit := emit (EvLogInfo msg).
Definition logger_Error (msg : string) : M unit := emit (EvLogError msg).

(** [go f()]. *)
Definition go (t : Task) : M unit :=
  emit (EvSpawn t) ;;
  fun '(dm, w) => Ret tt (dm, set_spawned (spawned w ++ [t]) w).

Definition get_config : M Config := fun '(dm, w) => Ret (config dm) (dm, w).
Definition get_db : M (option GormDB) := fun '(dm, w) => Ret (db dm) (dm, w).

(** *** The mutex [dm.mu]

    A call that has to wait never returns in a run of a single routine. *)
Definition mu_Lock : M unit :=
  fun '(dm, w) =>
    match mu dm with
    | Unlocked => Ret tt (set_mu Locked dm, w)
    | _ => Blocked (dm, w)
    end.

Definition mu_Unlock : M unit :=
  fun '(dm, w) =>
    match mu dm with
    | Locked => Ret tt (set_mu Unlocked dm, w)
    | _ => Panic (dm, w)
    end.

Definition mu_RLock : M unit :=
  fun '(dm, w) =>
    match mu dm with
    | Unlocked => Ret tt (set_mu (RLocked 0) dm, w)
    | RLocked n => Ret tt (set_mu (RLocked (S n)) dm, w)
    | Locked => Blocked (dm, w)
    end.

Definition mu_RUnlock : M unit :=
  fun '(dm, w) =>
    match mu dm with
    | RLocked 0 => Ret tt (set_mu Unlocked dm, w)
    | RLocked (S n) => Ret tt (set_mu (RLocked n) dm, w)
    | _ => Panic (dm, w)
    end.

(** *** Accesses to the guarded structures *)

Definition write_health (f : HealthField) (upd : HealthStatus -> HealthStatus) : M unit :=
  fun '(dm, w) =>
    Ret tt (set_healthStatus (upd (healthStatus dm)) dm,
            set_trace (trace w ++ [EvWriteHealth f (mu dm)]) w).

Definition read_health : M HealthStatus :=
  fun '(dm, w) =>
    Ret (healthStatus dm) (dm, set_trace (trace w ++ [EvReadHealth (mu dm)]) w).

Definition write_metrics (v : ConnectionMetrics) : M unit :=
  fun '(dm, w) =>
    Ret tt (dm, set_heap (store (metrics dm) v (heap w))
                  (set_trace (trace w ++ [EvWriteMetrics (mu dm)]) w)).

Definition read_metrics : M ConnectionMetrics :=
  fun '(dm, w) =>
    Ret (heap w (metrics dm)) (dm, set_trace (trace w ++ [EvReadMetrics (mu dm)]) w).

(** ** The methods of the manager *)

Section Manager.

Variable env : Env.

(** [sqlDB.PingContext(ctx)] under a context that expires [timeout] after
    the call starts.  The answer is used if it arrives before the deadline;
    otherwise the call fails with the context's error, no earlier than the
    deadline. *)
Definition PingContext (sqlDB : SqlDB) (timeout : Duration) (r : PingResponse)
  : M (option error) :=
  emit (EvPing sqlDB timeout) ;;
  if Z.max 0 (rtt r) <? timeout
  then advance (rtt r) ;; ret (answer r)
  else advance (Z.max 0 timeout + Z.max 0 (wake r)) ;; ret (Some context_DeadlineExceeded).

(** The next answer of the probe stream. *)
Definition next_probe : M PingResponse :=
  fun '(dm, w) => Ret (probe env (probes w)) (dm, set_probes (S (probes w)) w).

(** [sqlDB.Stats()]. *)
Definition sql_Stats (sqlDB : SqlDB) : M DBStats :=
  emit (EvStats sqlDB) ;;
  fun '(dm, w) => Ret (pool_stats env (polls w)) (dm, set_polls (S (polls w)) w).

(** [sqlDB.Close()]. *)
Definition sql_Close (sqlDB : SqlDB) : M (option error) :=
  emit (EvClose sqlDB) ;;
  fun '(dm, w) => Ret (pool_close env (closes w)) (dm, set_closes (S (closes w)) w).

(** [gorm.Open(postgres.Open(dsn), ...)]: one connection attempt. *)
Definition gorm_Open (dsn : string) (level : LogLevel) : M ConnectTarget :=
  emit (EvOpen dsn level) ;;
  fun '(dm, w) => Ret (dial env (dials w)) (dm, set_dials (S (dials w)) w).

(** [dm.db.DB()]; calling it on a nil [dm.db] dereferences nil. *)
Definition dm_db_DB : M (SqlDB + error) :=
  g <- get_db ;;
  match g with
  | None => panic
  | Some g => ret (gorm_DB g)
  end.

(** updateMetrics updates the connection metrics. *)
Definition updateMetrics : M unit :=
  mu_Lock ;;
  defer mu_Unlock (
    h <- dm_db_DB ;;
    match h with
    | inr err => logger_Error "Failed to get SQL DB for metrics"
    | inl sqlDB =>
        stats <- sql_Stats sqlDB ;;
        cfg <- get_config ;;
        write_metrics
          (mkConnectionMetrics
             (stats_OpenConnections stats)     (* TotalConnections *)
             (stats_OpenConnections stats)     (* OpenConnections *)
             (stats_Idle stats)
             (stats_InUse stats)
             (stats_WaitCount stats)
             (stats_WaitDuration stats)
             (DatabaseMaxOpenConns cfg)
             (DatabaseMaxIdleConns cfg))
    end).

(** connect establishes the actual database connection. *)
Definition connect : M (option error) :=
  cfg <- get_config ;;
  let logLevel := if IsDebugMode cfg then gormlogger_Info else gormlogger_Error in
  t <- gorm_Open (ConnectionString cfg) logLevel ;;
  match t with
  | OpenFails err => ret (Some err)
  | Opened g first_ping =>
      match gorm_DB g with
      | inr err => ret (Some err)
      | inl sqlDB =>
          emit (EvSetMaxOpenConns (DatabaseMaxOpenConns cfg)) ;;
          emit (EvSetMaxIdleConns (DatabaseMaxIdleConns cfg)) ;;
          emit (EvSetConnMaxLifetime (DatabaseConnMaxLifetime cfg)) ;;
          emit (EvSetConnMaxIdleTime (DatabaseConnMaxIdleTime cfg)) ;;
          r <- PingContext sqlDB (DatabaseConnectTimeout cfg) first_ping ;;
          match r with
          | Some err => ret (Some err)
          | None =>
              (fun '(dm, w) => Ret tt (set_db (Some g) dm, w)) ;;
              updateMetrics ;;
              ret None
          end
      end
  end.

(** [sentry.GetHubFromContext(context.Background())]: the background
    context carries no hub, so the lookup yields nil and the report to
    Sentry inside the retry loop is skipped. *)
Definition sentry_GetHubFromContext_Background : option unit := None.

(** The loop of connectWithRetry, from the test [attempt <= N] on.  The
    counter is a Go [int]: [attempt++] wraps. *)
Fixpoint connectWithRetry_loop (fuel : nat) (attempt : Z) (lastErr : option error)
  : M (option error) :=
  match fuel with
  | O => fun _ => OutOfFuel
  | S fuel' =>
      cfg <- get_config ;;
      if attempt <=? DatabaseRetryAttempts cfg then
        logger_Info "Attempting to connect to database" ;;
        r <- connect ;;
        match r with
        | Some err =>
            write_health F_RetryCount (set_RetryCount attempt) ;;
            match sentry_GetHubFromContext_Background with
            | Some _ => emit (EvSentryCapture attempt)
            | None => ret tt
            end ;;
            logger_Error "Database connection attempt failed" ;;
            (if attempt <? DatabaseRetryAttempts cfg
             then time_Sleep (DatabaseRetryDelay cfg)
             else ret tt) ;;
            connectWithRetry_loop fuel' (wrap_int (attempt + 1)) (Some err)
        | None =>
            write_health F_IsHealthy (set_IsHealthy true) ;;
            write_health F_RetryCount (set_RetryCount 0) ;;
            logger_Info "Database connection established successfully" ;;
            ret None
        end
      else
        ret (Some (WithContext "retry_attempts" (DatabaseRetryAttempts cfg)
                     (WithResource "database"
                        (WithOperation "connect_database"
                           (DatabaseError "Failed to connect to database after retries" lastErr)))))
  end.

(** connectWithRetry attempts to connect to the database with retry logic. *)
Definition connectWithRetry (fuel : nat) : M (option error) :=
  connectWithRetry_loop fuel 1 None.

(** NewDatabaseManager creates a new database manager.  It returns the pair
    (manager, error) of the Go function, and the world it leaves. *)
Definition NewDatabaseManager (fuel : nat) (cfg : Config) (w : World)
  : option (option DatabaseManager * option error * World) :=
  let l := next_loc w in
  let w0 := set_next_loc (S l)
              (set_heap (store l (mkConnectionMetrics 0 0 0 0 0 0 0 0) (heap w)) w) in
  let manager :=
    mkDatabaseManager None cfg (mkHealthStatus false time_zero EmptyString 0 0) Unlocked l in
  match connectWithRetry fuel (manager, w0) with
  | Ret (Some err) (dm, w1) =>
      Some (None,
            Some (WithResource "database"
                    (WithOperation "initialize_database_manager"
                       (DatabaseError "Failed to initialize database manager" (Some err)))),
            w1)
  | Ret None s1 =>
      match (go Task_startHealthCheck ;; go Task_startMetricsCollection) s1 with
      | Ret _ (dm, w2) => Some (Some dm, None, w2)
      | _ => None
      end
  | _ => None
  end.

(** GetDB returns the GORM database instance. *)
Definition GetDB : M (option GormDB) := get_db.

(** getHealthStatus returns a copy of the current health status. *)
Definition getHealthStatus : M HealthStatus :=
  mu_RLock ;;
  defer mu_RUnlock read_health.

(** updateHealthStatus updates the health status. *)
Definition updateHealthStatus (isHealthy : bool) (lastError : string)
  (responseTime : Duration) : M unit :=
  mu_Lock ;;
  defer mu_Unlock (
    write_health F_IsHealthy (set_IsHealthy isHealthy) ;;
    t <- time_Now ;;
    write_health F_LastCheck (set_LastCheck t) ;;
    write_health F_LastError (set_LastError lastError) ;;
    write_health F_ResponseTime (set_ResponseTime responseTime)).

(** HealthCheck performs a health check on the database connection. *)
Definition HealthCheck : M HealthStatus :=
  start <- time_Now ;;
  cfg <- get_config ;;
  let timeout := DatabaseHealthTimeout cfg in
  h <- dm_db_DB ;;
  match h with
  | inr err =>
      d <- time_Since start ;;
      updateHealthStatus false (Error err) d ;;
      getHealthStatus
  | inl sqlDB =>
      p <- next_probe ;;
      r <- PingContext sqlDB timeout p ;;
      match r with
      | Some err =>
          d <- time_Since start ;;
          updateHealthStatus false (Error err) d ;;
          getHealthStatus
      | None =>
          d <- time_Since start ;;
          updateHealthStatus true EmptyString d ;;
          getHealthStatus
      end
  end.

(** FastHealthCheck performs a quick health check without database ping. *)
Definition FastHealthCheck : M HealthStatus :=
  mu_RLock ;;
  defer mu_RUnlock (
    cached <- read_health ;;
    since <- time_Since (LastCheck cached) ;;
    if since <? 10 * Second then
      read_health
    else
      go Task_HealthCheck ;;
      read_health).

(** GetMetrics returns the current connection metrics: the struct behind
    the pointer, by value. *)
Definition GetMetrics : M ConnectionMetrics :=
  mu_RLock ;;
  defer mu_RUnlock read_metrics.

(** Close gracefully closes the database connection. *)
Definition Close : M (option error) :=
  mu_Lock ;;
  defer mu_Unlock (
    g <- get_db ;;
    match g with
    | Some g =>
        match gorm_DB g with
        | inr err =>
            ret (Some (WithResource "database"
                         (WithOperation "close_database"
                            (DatabaseError "Failed to get SQL DB for closing" (Some err)))))
        | inl sqlDB =>
            r <- sql_Close sqlDB ;;
            match r with
            | Some err =>
                logger_Error "Failed to close database connection" ;;
                ret (Some (WithResource "database"
                             (WithOperation "close_database"
                                (DatabaseError "Failed to close database connection" (Some err)))))
            | None =>
                logger_Info "Database connection closed gracefully" ;;
                ret None
            end
        end
    | None => ret None
    end).


(** GetHealthStatus returns the detailed health status. *)
Definition GetHealthStatus : M HealthStatus := getHealthStatus.

(** One round of the two background routines: what startHealthCheck and
    startMetricsCollection do each time their ticker fires. *)
Definition startHealthCheck_tick : M unit := HealthCheck ;; ret tt.
Definition startMetricsCollection_tick : M unit := updateMetrics.

End Manager.

(** ** Observations on traces *)

(** The retry loop seen from outside: connection attempts and sleeps, in
    the order they happen. *)
Inductive RetryStep : Type :=
  | Attempt
  | Sleep (d : Duration).

Fixpoint retry_view (evs : list Event) : list RetryStep :=
  match evs with
  | [] => []
  | EvOpen _ _ :: evs' => Attempt :: retry_view evs'
  | EvSleep d :: evs' => Sleep d :: retry_view evs'
  | _ :: evs' => retry_view evs'
  end.

(** [n] rounds of a failed attempt followed by a sleep of [d]. *)
Fixpoint rounds (n : nat) (d : Duration) : list RetryStep :=
  match n with
  | O => []
  | S n' => Attempt :: Sleep d :: rounds n' d
  end.

(** The schedule of [n] attempts: a sleep of [d] between two attempts, none
    before the first and none after the last. *)
Definition schedule (n : nat) (d : Duration) : list RetryStep :=
  match n with
  | O => []
  | S n' => rounds n' d ++ [Attempt]
  end.

Definition is_attempt (s : RetryStep) : bool :=
  match s with Attempt => true | Sleep _ => false end.

Definition is_sleep (s : RetryStep) : bool :=
  match s with Attempt => false | Sleep _ => true end.

Definition count_attempts (evs : list Event) : nat :=
  List.length (filter is_attempt (retry_view evs)).

Definition count_sleeps (evs : list Event) : nat :=
  List.length (filter is_sleep (retry_view evs)).

(** Total time asked of [time.Sleep]. *)
Fixpoint slept (l : list RetryStep) : Duration :=
  match l with
  | [] => 0
  | Attempt :: l' => slept l'
  | Sleep d :: l' => d + slept l'
  end.

Definition is_spawn (e : Event) : bool :=
  match e with EvSpawn _ => true | _ => false end.

Definition is_health_write (e : Event) : bool :=
  match e with EvWriteHealth _ _ => true | _ => false end.

(** A write to [HealthStatus] made while the mutex is not held in
    exclusive mode. *)
Definition unguarded_health_write (e : Event) : bool :=
  match e with
  | EvWriteHealth _ Locked => false
  | EvWriteHealth _ _ => true
  | _ => false
  end.

(** Every write to [HealthStatus] in the trace is made under the exclusive
    lock. *)
Definition health_writes_exclusive (evs : list Event) : bool :=
  forallb (fun e => negb (unguarded_health_write e)) evs.

(** Every read of [HealthStatus] in the trace is made while the mutex is
    held, in shared or in exclusive mode. *)
Definition health_reads_locked (evs : list Event) : bool :=
  forallb (fun e => match e with EvReadHealth Unlocked => false | _ => true end) evs.

Definition is_ping (e : Event) : bool :=
  match e with EvPing _ _ => true | _ => false end.

(** No routine is started by these events. *)
Definition no_spawn (evs : list Event) : bool :=
  forallb (fun e => negb (is_spawn e)) evs.

(** The snapshot [updateMetrics] writes from the pool statistics [stats]
    under the configuration [cfg]. *)
Definition refreshed (cfg : Config) (stats : DBStats) : ConnectionMetrics :=
  mkConnectionMetrics (stats_OpenConnections stats) (stats_OpenConnections stats)
    (stats_Idle stats) (stats_InUse stats) (stats_WaitCount stats)
    (stats_WaitDuration stats) (DatabaseMaxOpenConns cfg) (DatabaseMaxIdleConns cfg).

(** ** What a connection attempt meets *)

(** The result of a probe under a deadline. *)
Definition ping_result (timeout : Duration) (r : PingResponse) : option error :=
  if Z.max 0 (rtt r) <? timeout then answer r else Some context_DeadlineExceeded.

(** The error, if any, that [connect] returns on a target. *)
Definition target_error (timeout : Duration) (t : ConnectTarget) : option error :=
  match t with
  | OpenFails err => Some err
  | Opened g first_ping =>
      match gorm_DB g with
      | inr err => Some err
      | inl _ => ping_result timeout first_ping
      end
  end.


(** The world after a probe of [sqlDB] answered by [p] under [timeout]. *)
Definition probed (sqlDB : SqlDB) (timeout : Duration) (p : PingResponse) (w : World)
  : World :=
  set_now (now w + Z.max 0 (if Z.max 0 (rtt p) <? timeout then rtt p
                            else Z.max 0 timeout + Z.max 0 (wake p)))
    (set_trace (trace w ++ [EvPing sqlDB timeout]) w).

(** The events of [updateHealthStatus] followed by [getHealthStatus]. *)
Definition record_events : list Event :=
  [EvWriteHealth F_IsHealthy Locked; EvWriteHealth F_LastCheck Locked;
   EvWriteHealth F_LastError Locked; EvWriteHealth F_ResponseTime Locked;
   EvReadHealth (RLocked 0)].

(** The state of the mutex while one more reader holds it. *)
Definition rlock (m : RWMutex) : RWMutex :=
  match m with
  | Unlocked => RLocked 0
  | RLocked n => RLocked (S n)
  | Locked => Locked
  end.

(** The error [Close] returns for a failure [err] reported as [message]. *)
Definition close_error (message : string) (err : error) : error :=
  WithResource "database"
    (WithOperation "close_database" (DatabaseError message (Some err))).

Definition construction_spawns : list Event :=
  [EvSpawn Task_startHealthCheck; EvSpawn Task_startMetricsCollection].

(** A metrics snapshot that agrees with the configuration. *)
Definition metrics_current (cfg : Config) (m : ConnectionMetrics) : Prop :=
  TotalConnections m = OpenConnections m /\
  MaxOpenConnections m = DatabaseMaxOpenConns cfg /\
  MaxIdleConnections m = DatabaseMaxIdleConns cfg.

(** The states of a manager in service: the mutex is free between two
    calls, the handle is there and gives its pool, and the metrics have
    been refreshed. *)
Definition serving (s : St) : Prop :=
  mu (fst s) = Unlocked /\
  (exists g sqlDB, db (fst s) = Some g /\ gorm_DB g = inl sqlDB) /\
  metrics_current (config (fst s)) (heap (snd s) (metrics (fst s))).

(** Time passing between two calls. *)
Definition elapse (d : Duration) (w : World) : World :=
  set_now (now w + Z.max 0 d) w.

(** ** The manager in service *)

Section Service.

Variable env : Env.

(** What happens to a manager once it is built: the calls of its clients
    and the rounds of its two background routines, each run while no other
    routine holds the mutex, and time passing in between. *)
Inductive step : St -> St -> Prop :=
  | step_HealthCheck s hs s' : HealthCheck env s = Ret hs s' -> step s s'
  | step_FastHealthCheck s hs s' : FastHealthCheck s = Ret hs s' -> step s s'
  | step_GetHealthStatus s hs s' : GetHealthStatus s = Ret hs s' -> step s s'
  | step_updateMetrics s s' : updateMetrics env s = Ret tt s' -> step s s'
  | step_GetMetrics s m s' : GetMetrics s = Ret m s' -> step s s'
  | step_Close s r s' : Close env s = Ret r s' -> step s s'
  | step_elapse dm w d : step (dm, w) (dm, elapse d w).

Inductive reachable (cfg : Config) : St -> Prop :=
  | reach_new fuel w dm w' :
      NewDatabaseManager env fuel cfg w = Some (Some dm, None, w') ->
      reachable cfg (dm, w')
  | reach_step s s' : reachable cfg s -> step s s' -> reachable cfg s'.

End Service.

(** ** The manager among other routines

    The methods above are runs in which nothing else happens between the
    first and the last action of a call.  The program does not run so: the
    two background routines and the callers of the health endpoints run at
    the same time, and a method is atomic only while it holds the mutex.
    The following definitions make explicit what the other routines may do
    between two actions of HealthCheck: let time pass, send the probe of
    another check, record the result of another check, refresh the
    metrics.  Each of these takes and releases the mutex by itself; time
    passing inside a critical section has the effect of time passing just
    before or just after it, and is not listed apart. *)

Inductive Interference : Type :=
  | Passes (d : Duration)
  | OtherProbe
  | OtherRecord (isHealthy : bool) (lastError : string) (responseTime : Duration)
  | OtherRefresh.

(** What happens, in a call of HealthCheck, between [time.Now()] and the
    probe, between the probe and [time.Since(start)], between that
    measure and the lock of updateHealthStatus, and between the unlock of
    updateHealthStatus and the read of getHealthStatus. *)
Record Interleaving : Type := mkInterleaving {
  before_probe : list Interference;
  after_probe : list Interference;
  before_record : list Interference;
  before_read : list Interference
}.

Definition quiet : Interleaving := mkInterleaving [] [] [] [].

Definition is_other_probe (i : Interference) : bool :=
  match i with OtherProbe => true | _ => false end.

Definition is_other_record (i : Interference) : bool :=
  match i with OtherRecord _ _ _ => true | _ => false end.

Definition other_probes (l : list Interference) : nat :=
  List.length (filter is_other_probe l).

Definition no_records (l : list Interference) : bool :=
  forallb (fun i => negb (is_other_record i)) l.

(** The health flag recorded last: [b] unless another check has recorded
    since. *)
Fixpoint recorded_health (l : list Interference) (b : bool) : bool :=
  match l with
  | [] => b
  | OtherRecord b' _ _ :: l' => recorded_health l' b'
  | _ :: l' => recorded_health l' b
  end.

Definition handle_ok (g : GormDB) : bool :=
  match gorm_DB g with inl _ => true | inr _ => false end.

Section Interleaved.

Variable env : Env.

(** The probe of another health check. *)
Definition other_probe : M unit :=
  h <- dm_db_DB ;;
  match h with
  | inr _ => ret tt
  | inl sqlDB =>
      cfg <- get_config ;;
      p <- next_probe env ;;
      PingContext sqlDB (DatabaseHealthTimeout cfg) p ;;
      ret tt
  end.

Definition interfere (i : Interference) : M unit :=
  match i with
  | Passes d => advance d
  | OtherProbe => other_probe
  | OtherRecord isHealthy lastError responseTime =>
      updateHealthStatus isHealthy lastError responseTime
  | OtherRefresh => updateMetrics env
  end.

Fixpoint interleave (l : list Interference) : M unit :=
  match l with
  | [] => ret tt
  | i :: l' => interfere i ;; interleave l'
  end.

(** HealthCheck up to the result of its probe: the start time and the
    error met, if any.  The context expires [DatabaseHealthTimeout] after
    it is created, so the probe is left what remains of it. *)
Definition HealthCheck_probes (i : Interleaving) : M (Time * option error) :=
  start <- time_Now ;;
  cfg <- get_config ;;
  let deadline := start + DatabaseHealthTimeout cfg in
  interleave (before_probe i) ;;
  h <- dm_db_DB ;;
  match h with
  | inr err => ret (start, Some err)
  | inl sqlDB =>
      p <- next_probe env ;;
      t <- time_Now ;;
      r <- PingContext sqlDB (deadline - t) p ;;
      ret (start, r)
  end.

(** HealthCheck up to the end of updateHealthStatus. *)
Definition HealthCheck_records (i : Interleaving) : M unit :=
  o <- HealthCheck_probes i ;;
  interleave (after_probe i) ;;
  d <- time_Since (fst o) ;;
  interleave (before_record i) ;;
  match snd o with
  | Some err => updateHealthStatus false (Error err) d
  | None => updateHealthStatus true EmptyString d
  end.

(** HealthCheck among other routines: each of its three branches ends with
    updateHealthStatus followed by [return dm.getHealthStatus()]. *)
Definition HealthCheck_among (i : Interleaving) : M HealthStatus :=
  HealthCheck_records i ;;
  interleave (before_read i) ;;
  getHealthStatus.

(** What a routine started by [go] does when it runs: HealthCheck for the
    check FastHealthCheck starts, and for the two background routines one
    round of their loop. *)
Definition run_task (i : Interleaving) (t : Task) : M unit :=
  match t with
  | Task_HealthCheck => HealthCheck_among i ;; ret tt
  | Task_startHealthCheck => HealthCheck_among i ;; ret tt
  | Task_startMetricsCollection => updateMetrics env
  end.

(** The calls on a manager in service other than a health check. *)
Inductive idle_step : St -> St -> Prop :=
  | idle_FastHealthCheck s hs s' : FastHealthCheck s = Ret hs s' -> idle_step s s'
  | idle_GetHealthStatus s hs s' : GetHealthStatus s = Ret hs s' -> idle_step s s'
  | idle_updateMetrics s s' : updateMetrics env s = Ret tt s' -> idle_step s s'
  | idle_GetMetrics s m s' : GetMetrics s = Ret m s' -> idle_step s s'
  | idle_Close s r s' : Close env s = Ret r s' -> idle_step s s'
  | idle_elapse dm w d : idle_step (dm, w) (dm, elapse d w).

(** The states of a manager built by NewDatabaseManager on which no health
    check has run yet. *)
Inductive unchecked (cfg : Config) : St -> Prop :=
  | unchecked_new fuel w dm w' :
      NewDatabaseManager env fuel cfg w = Some (Some dm, None, w') ->
      unchecked cfg (dm, w')
  | unchecked_step s s' : unchecked cfg s -> idle_step s s' -> unchecked cfg s'.

End Interleaved.

(** ** Scenarios

    A configuration with the documented defaults (3 attempts, 1 s between
    them, 25 open and 5 idle connections, 30 s to connect, 5 s for a health
    check), and servers that refuse every connection, accept the third one,
    accept at once, or stop answering probes. *)

Definition cfg_default : Config :=
  mkConfig 3 Second 25 5 (300 * Second) (60 * Second) (30 * Second) (5 * Second)
    false "host=localhost dbname=app".

Definition no_metrics : ConnectionMetrics := mkConnectionMetrics 0 0 0 0 0 0 0 0.

Definition w_start : World :=
  mkWorld 1700000000000000000 [] [] 0%nat 0%nat 0%nat 0%nat (fun _ => no_metrics) 0%nat.

Definition pool0 : GormDB := mkGormDB 0%nat (inl 0%nat).

(** An answer after 2 ms. *)
Definition prompt : PingResponse := mkPingResponse 2000000 None 0.


Definition quiet_stats : DBStats := mkDBStats 1 1 0 0 0.

Definition refused : error := errorString "connection refused".

Definition env_down : Env :=
  mkEnv (fun _ => OpenFails refused) (fun _ => prompt) (fun _ => quiet_stats) (fun _ => None).

Definition env_flaky : Env :=
  mkEnv (fun i => if Nat.ltb i 2 then OpenFails refused else Opened pool0 prompt)
    (fun _ => prompt) (fun _ => quiet_stats) (fun _ => None).

Definition env_up : Env :=
  mkEnv (fun _ => Opened pool0 prompt) (fun _ => prompt) (fun _ => quiet_stats)
    (fun _ => None).


(** The manager as NewDatabaseManager allocates it, and a manager that
    holds a connection. *)
Definition fresh (cfg : Config) : DatabaseManager :=
  mkDatabaseManager None cfg (mkHealthStatus false time_zero EmptyString 0 0) Unlocked 0%nat.

Definition connected (cfg : Config) : DatabaseManager :=
  mkDatabaseManager (Some pool0) cfg (mkHealthStatus true time_zero EmptyString 0 0)
    Unlocked 0%nat.

(** The manager NewDatabaseManager builds against [env_up], and its state
    after one round of the health-check routine. *)
Definition built : St :=
  match NewDatabaseManager env_up 1 cfg_default w_start with
  | Some (Some dm, _, w') => (dm, w')
  | _ => (fresh cfg_default, w_start)
  end.

Definition checked : St :=
  match HealthCheck env_up built with
  | Ret _ s => s
  | _ => built
  end.

(** A configuration with the largest number of attempts a Go [int] holds. *)
Definition cfg_max_attempts : Config :=
  mkConfig max_int Second 25 5 (300 * Second) (60 * Second) (30 * Second) (5 * Second)
    false "host=localhost dbname=app".

(** A probe answered after 1 ms by an error without text. *)
Definition mute : PingResponse := mkPingResponse 1000000 (Some (errorString EmptyString)) 0.

Definition env_mute : Env :=
  mkEnv (fun _ => Opened pool0 prompt) (fun _ => mute) (fun _ => quiet_stats)
    (fun _ => None).

(** Time passes at each point of the check, and another check records a
    healthy status between this check's record and its read. *)
Definition overtaken : Interleaving :=
  mkInterleaving [Passes 1000000] [Passes 2000000] [Passes 1000000]
    [Passes 1000000; OtherRecord true EmptyString 3000000].

(** Time passes at each point of the check and another check probes, but
    no other check records. *)
Definition busy : Interleaving :=
  mkInterleaving [Passes 1000000; OtherProbe] [Passes 2000000] [Passes 1000000]
    [Passes 1000000; OtherRefresh].

(** ** Reading an error *)

(** The fields [Cause], [Message] and [Context] of an [AppError]; a library
    error has none. *)
Definition Cause (e : error) : option error :=
  match e with
  | AppError _ _ cause _ _ _ => cause
  | errorString _ => None
  end.

Definition Message (e : error) : string :=
  match e with
  | AppError _ message _ _ _ _ => message
  | errorString _ => EmptyString
  end.

Definition ContextOf (e : error) : list (string * Z) :=
  match e with
  | AppError _ _ _ _ _ context => context
  | errorString _ => []
  end.

(** ** Calls in a row *)

(** [n] calls of a method one after the other, with the values returned. *)
Fixpoint calls {A : Type} (m : M A) (n : nat) : M (list A) :=
  match n with
  | O => ret []
  | S n' => a <- m ;; l <- calls m n' ;; ret (a :: l)
  end.

(** The error of the last of [n] attempts made from the [base]-th answer of
    the server on, or [l] when no attempt was made. *)
Definition last_failure (env : Env) (timeout : Duration) (base n : nat)
  (l : option error) : option error :=
  match n with
  | O => l
  | S m => target_error timeout (dial env (base + m))
  end.

(** The status after [n] failed attempts numbered from [a]. *)
Definition retried (n : nat) (a : Z) (h : HealthStatus) : HealthStatus :=
  match n with
  | O => h
  | S m => set_RetryCount (a + Z.of_nat m) h
  end.

(** The error connectWithRetry returns when it gives up. *)
Definition retry_error (cfg : Config) (lastErr : option error) : error :=
  WithContext "retry_attempts" (DatabaseRetryAttempts cfg)
    (WithResource "database"
       (WithOperation "connect_database"
          (DatabaseError "Failed to connect to database after retries" lastErr))).

(** The error NewDatabaseManager returns for a failure [err] of the
    connection. *)
Definition init_error (err : error) : error :=
  WithResource "database"
    (WithOperation "initialize_database_manager"
       (DatabaseError "Failed to initialize database manager" (Some err))).

(** The status of a manager just built. *)
Definition built_status : HealthStatus :=
  mkHealthStatus true time_zero EmptyString 0 0.

(** A configuration that allows no attempt. *)
Definition cfg_no_retry : Config :=
  mkConfig 0 Second 25 5 (300 * Second) (60 * Second) (30 * Second) (5 * Second)
    false "host=localhost dbname=app".

(** A handle whose [DB()] fails. *)
Definition pool_broken : GormDB := mkGormDB 1%nat (inr (errorString "invalid db")).

Definition broken (cfg : Config) : DatabaseManager :=
  mkDatabaseManager (Some pool_broken) cfg built_status Unlocked 0%nat.

(** A server whose first probe fails at once, the others being answered,
    whose pool grows by one connection between two polls, and which closes
    once. *)
Definition reset : PingResponse :=
  mkPingResponse 1000000 (Some (errorString "connection reset by peer")) 0.

Definition env_blip : Env :=
  mkEnv (fun _ => Opened pool0 prompt)
    (fun i => if Nat.eqb i 0 then reset else prompt)
    (fun i => mkDBStats (Z.of_nat i + 1) (Z.of_nat i) 1 (Z.of_nat i) 0)
    (fun i => if Nat.eqb i 0 then None else Some (errorString "sql: database is closed")).

(** ** The error handler's text matching (package errors) *)

(** The loop of containsSubstring: the positions [i], [i + 1], ... of [s],
    [count] of them. *)
Fixpoint containsSubstring_loop (count i : nat) (s substr : string) : bool :=
  match count with
  | O => false
  | S count' =>
      if String.eqb (substring i (String.length substr) s) substr
      then true
      else containsSubstring_loop count' (S i) s substr
  end.

(** containsSubstring checks if s contains substr. *)
Definition containsSubstring (s substr : string) : bool :=
  if Nat.eqb (String.length substr) 0 then true
  else if Nat.ltb (String.length s) (String.length substr) then false
  else containsSubstring_loop (String.length s - String.length substr + 1) 0 s substr.

(** containsIgnoreCase, with the short-circuit evaluation of [&&] and [||]. *)
Definition containsIgnoreCase (s substr : string) : bool :=
  if Nat.leb (String.length substr) (String.length s) then
    if String.eqb s substr then true
    else if Nat.ltb (String.length substr) (String.length s) then
      if String.eqb (substring 0 (String.length substr) s) substr then true
      else if String.eqb (substring (String.length s - String.length substr)
                            (String.length substr) s) substr then true
      else containsSubstring s substr
    else false
  else false.

Definition gormErrorPatterns : list string :=
  ["database"; "sql"; "connection"; "transaction"; "constraint"; "foreign key";
   "unique constraint"; "duplicate key"].

(** The loop of isGORMError over the patterns. *)
Fixpoint isGORMError_loop (errStr : string) (patterns : list string) : bool :=
  match patterns with
  | [] => false
  | pattern :: rest =>
      if containsIgnoreCase errStr pattern then true
      else isGORMError_loop errStr rest
  end.

(** isGORMError checks if an error is a GORM error. *)
Definition isGORMError (err : error) : bool :=
  isGORMError_loop (Error err) gormErrorPatterns.

(** [substr] occurs in [s], byte for byte. *)
Definition occurs (substr s : string) : Prop :=
  exists pre post, s = (pre ++ substr ++ post)%string.

(** ** Arithmetic of the model *)

Lemma store_same (l : loc) (v : ConnectionMetrics) (h : loc -> ConnectionMetrics) :
  store l v h l = v.
Proof. unfold store. now rewrite Nat.eqb_refl. Qed.

Lemma store_other (l l' : loc) (v : ConnectionMetrics) (h : loc -> ConnectionMetrics) :
  l' <> l -> store l v h l' = h l'.
Proof. unfold store. intros H. apply Nat.eqb_neq in H. now rewrite H. Qed.

Lemma wrap_int_id (z : Z) : min_int <= z <= max_int -> wrap_int z = z.
Proof.
  unfold wrap_int, min_int, max_int. intros H.
  rewrite Z.mod_small; lia.
Qed.

Lemma saturate_id (z : Z) : min_int <= z <= max_int -> saturate z = z.
Proof. unfold saturate. lia. Qed.

Lemma saturate_nonneg (z : Z) : 0 <= z -> 0 <= saturate z.
Proof. unfold saturate, min_int, max_int. lia. Qed.

Lemma saturate_mono (a b : Z) : a <= b -> saturate a <= saturate b.
Proof. unfold saturate. lia. Qed.

Lemma time_Sub_lt (t u : Time) (d : Duration) :
  min_int < d <= max_int -> (time_Sub t u < d <-> t - u < d).
Proof. unfold time_Sub, saturate, min_int, max_int. lia. Qed.

Lemma retry_view_app (l1 l2 : list Event) :
  retry_view (l1 ++ l2) = retry_view l1 ++ retry_view l2.
Proof.
  induction l1 as [|e l1 IH]; [reflexivity|].
  destruct e; simpl; rewrite ?IH; reflexivity.
Qed.

Lemma rounds_snoc (n : nat) (d : Duration) :
  rounds (S n) d = rounds n d ++ [Attempt; Sleep d].
Proof.
  induction n as [|n IH]; [reflexivity|].
  cbn [rounds app] in *. do 2 f_equal. exact IH.
Qed.

Lemma rounds_attempts (n : nat) (d : Duration) :
  List.length (filter is_attempt (rounds n d)) = n.
Proof. induction n as [|n IH]; simpl; [reflexivity | now rewrite IH]. Qed.

Lemma rounds_sleeps (n : nat) (d : Duration) :
  List.length (filter is_sleep (rounds n d)) = n.
Proof. induction n as [|n IH]; simpl; [reflexivity | now rewrite IH]. Qed.

Lemma rounds_slept (n : nat) (d : Duration) : slept (rounds n d) = Z.of_nat n * d.
Proof. induction n as [|n IH]; [reflexivity|]. cbn [rounds slept]. lia. Qed.

Lemma slept_app (l1 l2 : list RetryStep) : slept (l1 ++ l2) = slept l1 + slept l2.
Proof.
  induction l1 as [|s l1 IH]; [reflexivity|].
  destruct s; cbn [app slept]; lia.
Qed.

Lemma schedule_attempts (n : nat) (d : Duration) :
  List.length (filter is_attempt (schedule n d)) = n.
Proof.
  destruct n as [|n]; [reflexivity|]. unfold schedule.
  rewrite filter_app, length_app, rounds_attempts. simpl. lia.
Qed.

Lemma schedule_sleeps (n : nat) (d : Duration) :
  List.length (filter is_sleep (schedule n d)) = (n - 1)%nat.
Proof.
  destruct n as [|n]; [reflexivity|]. unfold schedule.
  rewrite filter_app, length_app, rounds_sleeps. simpl. lia.
Qed.

Lemma schedule_slept (n : nat) (d : Duration) :
  slept (schedule (S n) d) = Z.of_nat n * d.
Proof. unfold schedule. rewrite slept_app, rounds_slept. simpl. lia. Qed.


(** The last step of a schedule is an attempt, never a sleep. *)
Lemma schedule_ends_with_attempt (n : nat) (d : Duration) :
  last (schedule (S n) d) (Sleep d) = Attempt.
Proof. unfold schedule. apply last_last. Qed.

(** ** Properties *)

(** Reduce the projections of the manager and of the world, and nothing
    else. *)
Ltac fields :=
  cbn [db config healthStatus mu metrics set_db set_healthStatus set_mu
       now trace spawned dials probes polls closes heap next_loc
       set_now set_trace set_spawned set_dials set_probes set_polls set_closes
       set_heap set_next_loc
       IsHealthy LastCheck LastError ResponseTime RetryCount
       set_IsHealthy set_LastCheck set_LastError set_ResponseTime set_RetryCount
       fst snd] in *.

Section Properties.
Variable env : Env.

(** A failed attempt: [connect] returns the error of the target and leaves
    the manager as it was. *)
Lemma connect_fails dm w e :
  target_error (DatabaseConnectTimeout (config dm)) (dial env (dials w)) = Some e ->
  exists w' evs,
    connect env (dm, w) = Ret (Some e) (dm, w') /\
    trace w' = trace w ++ evs /\
    retry_view evs = [Attempt] /\
    no_spawn evs = true /\
    spawned w' = spawned w /\
    dials w' = S (dials w) /\
    now w <= now w'.
Proof.
  intros H. destruct dm as [d c h m l], w as [t tr sp di pr po cl hp nl].
  unfold connect, bind, target_error, ping_result in *. cbn in *.
  destruct (dial env di) as [err|g p]; cbn in *.
  - inversion H; subst. do 2 eexists. split; [reflexivity|]. cbn.
    repeat split; try reflexivity; try lia.
  - destruct (gorm_DB g) as [sql|err]; cbn in *.
    + unfold PingContext, bind. cbn.
      destruct (Z.max 0 (rtt p) <? DatabaseConnectTimeout c); cbn.
      * rewrite H. do 2 eexists. split; [reflexivity|]. cbn.
        rewrite <- !app_assoc. cbn.
        repeat split; try reflexivity; try lia.
      * inversion H; subst. do 2 eexists. split; [reflexivity|]. cbn.
        rewrite <- !app_assoc. cbn.
        repeat split; try reflexivity; try lia.
    + inversion H; subst. do 2 eexists. split; [reflexivity|]. cbn.
      repeat split; try reflexivity; try lia.
Qed.

(** One failed round of the loop: the attempt, the record of the retry
    count, and the sleep unless the attempt was the last one allowed. *)
Lemma loop_failed_attempt fuel a l dm w e :
  a <= DatabaseRetryAttempts (config dm) ->
  target_error (DatabaseConnectTimeout (config dm)) (dial env (dials w)) = Some e ->
  exists w' evs,
    connectWithRetry_loop env (S fuel) a l (dm, w) =
    connectWithRetry_loop env fuel (wrap_int (a + 1)) (Some e)
      (set_healthStatus (set_RetryCount a (healthStatus dm)) dm, w') /\
    trace w' = trace w ++ evs /\
    retry_view evs =
      Attempt :: (if a <? DatabaseRetryAttempts (config dm)
                  then [Sleep (DatabaseRetryDelay (config dm))] else []) /\
    no_spawn evs = true /\
    spawned w' = spawned w /\
    dials w' = S (dials w) /\
    now w + (if a <? DatabaseRetryAttempts (config dm)
             then Z.max 0 (DatabaseRetryDelay (config dm)) else 0) <= now w'.
Proof.
  intros Ha H.
  destruct (connect_fails dm
              (set_trace (trace w ++ [EvLogInfo "Attempting to connect to database"]) w) e)
    as (w1 & evs1 & Hc & Htr & Hview & Hsp & Hspawned & Hdials & Hnow).
  { destruct w; exact H. }
  apply Z.leb_le in Ha.
  destruct dm as [d c h m lc], w as [t tr sp di pr po cl hp nl].
  destruct w1 as [t1 tr1 sp1 di1 pr1 po1 cl1 hp1 nl1].
  cbn [connectWithRetry_loop]. unfold bind at 1. cbn -[connect connectWithRetry_loop wrap_int Z.leb Z.ltb] in *.
  rewrite Ha. unfold bind at 1. cbn -[connect connectWithRetry_loop wrap_int Z.leb Z.ltb].
  unfold bind at 1. rewrite Hc. subst.
  destruct (a <? DatabaseRetryAttempts c);
    unfold bind, write_health, logger_Error, time_Sleep, emit, advance, ret;
    cbn -[connectWithRetry_loop wrap_int];
    (do 2 eexists; split; [reflexivity|]); cbn;
    rewrite <- !app_assoc; (split; [reflexivity|]);
    rewrite !retry_view_app, Hview; unfold no_spawn in *; rewrite !forallb_app, Hsp;
    cbn; repeat split; try reflexivity; try lia.
Qed.

(** [n] failed attempts in a row, none of them the last one allowed. *)
Lemma loop_failed_rounds n : forall fuel a l dm w,
  1 <= a ->
  a + Z.of_nat n <= DatabaseRetryAttempts (config dm) ->
  DatabaseRetryAttempts (config dm) <= max_int ->
  (forall i, (i < n)%nat ->
     target_error (DatabaseConnectTimeout (config dm)) (dial env (dials w + i)) <> None) ->
  exists l' h' w' evs,
    connectWithRetry_loop env (n + fuel) a l (dm, w) =
    connectWithRetry_loop env fuel (a + Z.of_nat n) l' (set_healthStatus h' dm, w') /\
    IsHealthy h' = IsHealthy (healthStatus dm) /\
    trace w' = trace w ++ evs /\
    retry_view evs = rounds n (DatabaseRetryDelay (config dm)) /\
    no_spawn evs = true /\
    spawned w' = spawned w /\
    dials w' = (dials w + n)%nat /\
    now w + Z.of_nat n * Z.max 0 (DatabaseRetryDelay (config dm)) <= now w'.
Proof.
  induction n as [|n IH]; intros fuel a l dm w H1 HN Hmax Hfail.
  - exists l, (healthStatus dm), w, []. rewrite Z.add_0_r, app_nil_r, Nat.add_0_r.
    destruct dm; cbn. repeat split; try reflexivity; lia.
  - destruct (target_error (DatabaseConnectTimeout (config dm)) (dial env (dials w))) as [e|] eqn:He.
    2:{ exfalso. apply (Hfail 0%nat); [lia|]. now rewrite Nat.add_0_r. }
    destruct (loop_failed_attempt (n + fuel) a l dm w e) as (w1 & evs1 & Hrun & Htr & Hview & Hsp & Hspawned & Hdials & Hnow);
      [lia | exact He |].
    replace (a <? DatabaseRetryAttempts (config dm)) with true in * by (symmetry; apply Z.ltb_lt; lia).
    rewrite wrap_int_id in Hrun by (unfold min_int, max_int in *; lia).
    destruct (IH fuel (a + 1) (Some e) (set_healthStatus (set_RetryCount a (healthStatus dm)) dm) w1)
      as (l' & h' & w' & evs & Hrun' & Hh & Htr' & Hview' & Hsp' & Hspawned' & Hdials' & Hnow').
    { lia. }
    { destruct dm; fields. lia. }
    { destruct dm; fields. lia. }
    { intros i Hi. destruct dm; fields. rewrite Hdials.
      replace (S (dials w) + i)%nat with (dials w + S i)%nat by lia. apply Hfail. lia. }
    exists l', h', w', (evs1 ++ evs).
    change (S n + fuel)%nat with (S (n + fuel)). rewrite Hrun, Hrun'.
    destruct dm as [d c h m lc]; fields.
    split; [f_equal; lia|].
    split; [exact Hh|].
    split; [rewrite Htr', Htr; symmetry; apply app_assoc|].
    split; [rewrite retry_view_app, Hview, Hview'; reflexivity|].
    split; [unfold no_spawn in *; rewrite forallb_app, Hsp, Hsp'; reflexivity|].
    split; [congruence|].
    split; [lia|].
    rewrite Nat2Z.inj_succ.
    set (M := Z.max 0 (DatabaseRetryDelay c)) in *. clearbody M. lia.
Qed.

(** Past the last attempt the loop returns the database error. *)
Lemma loop_exit fuel a l dm w :
  DatabaseRetryAttempts (config dm) < a ->
  connectWithRetry_loop env (S fuel) a l (dm, w) =
  Ret (Some (WithContext "retry_attempts" (DatabaseRetryAttempts (config dm))
               (WithResource "database"
                  (WithOperation "connect_database"
                     (DatabaseError "Failed to connect to database after retries" l)))))
      (dm, w).
Proof.
  intros Ha. apply Z.leb_gt in Ha.
  cbn [connectWithRetry_loop]. unfold bind, get_config. destruct dm; fields.
  rewrite Ha. reflexivity.
Qed.

(** A target without error has opened, given its pool and answered the
    first probe in time. *)
Lemma target_accepts timeout t :
  target_error timeout t = None ->
  exists g p sqlDB,
    t = Opened g p /\ gorm_DB g = inl sqlDB /\ ping_result timeout p = None.
Proof.
  destruct t as [err|g p]; cbn; [discriminate|].
  destruct (gorm_DB g) as [sqlDB|err] eqn:Hg; [|discriminate].
  intros H. exists g, p, sqlDB. auto.
Qed.

(** A refresh: the snapshot is overwritten from the pool statistics and the
    configuration, under the exclusive lock. *)
Lemma updateMetrics_refreshes dm w g sqlDB :
  mu dm = Unlocked -> db dm = Some g -> gorm_DB g = inl sqlDB ->
  updateMetrics env (dm, w) =
  Ret tt (dm,
          set_polls (S (polls w))
            (set_heap (store (metrics dm) (refreshed (config dm) (pool_stats env (polls w))) (heap w))
               (set_trace (trace w ++ [EvStats sqlDB; EvWriteMetrics Locked]) w))).
Proof.
  intros Hmu Hdb Hg. destruct dm as [d c h m lc], w as [t tr sp di pr po cl hp nl].
  fields. subst. unfold updateMetrics, bind, defer, dm_db_DB, bind, get_db. cbn.
  rewrite Hg. cbn. rewrite <- app_assoc. reflexivity.
Qed.

(** When the handle cannot be obtained the snapshot is left as it is. *)
Lemma updateMetrics_stale dm w g err :
  mu dm = Unlocked -> db dm = Some g -> gorm_DB g = inr err ->
  updateMetrics env (dm, w) =
  Ret tt (dm, set_trace (trace w ++ [EvLogError "Failed to get SQL DB for metrics"]) w).
Proof.
  intros Hmu Hdb Hg. destruct dm as [d c h m lc], w as [t tr sp di pr po cl hp nl].
  fields. subst. unfold updateMetrics, bind, defer, dm_db_DB, bind, get_db. cbn.
  rewrite Hg. reflexivity.
Qed.

(** A successful attempt stores the handle and refreshes the metrics. *)
Lemma connect_succeeds dm w g p sqlDB :
  mu dm = Unlocked ->
  dial env (dials w) = Opened g p -> gorm_DB g = inl sqlDB ->
  ping_result (DatabaseConnectTimeout (config dm)) p = None ->
  exists w' evs,
    connect env (dm, w) = Ret None (set_db (Some g) dm, w') /\
    trace w' = trace w ++ evs /\
    retry_view evs = [Attempt] /\
    no_spawn evs = true /\
    health_writes_exclusive evs = true /\
    spawned w' = spawned w /\
    dials w' = S (dials w) /\
    now w <= now w' /\
    heap w' (metrics dm) = refreshed (config dm) (pool_stats env (polls w)).
Proof.
  intros Hmu Hdial Hg Hp.
  destruct dm as [d c h m lc], w as [t tr sp di pr po cl hp nl]. fields. subst m.
  unfold connect, ping_result in *. unfold bind at 1. cbn -[updateMetrics].
  unfold bind at 1. cbn -[updateMetrics]. rewrite Hdial, Hg.
  unfold PingContext, bind. cbn -[updateMetrics].
  destruct (Z.max 0 (rtt p) <? DatabaseConnectTimeout c); [|discriminate].
  cbn -[updateMetrics]. rewrite Hp.
  erewrite updateMetrics_refreshes by (fields; eauto).
  do 2 eexists. split; [reflexivity|]. cbn.
  rewrite <- !app_assoc. split; [reflexivity|]. cbn. rewrite store_same.
  repeat split; try reflexivity; try lia.
Qed.

(** The round of the loop in which the connection is established. *)
Lemma loop_successful_attempt fuel a l dm w :
  a <= DatabaseRetryAttempts (config dm) ->
  mu dm = Unlocked ->
  target_error (DatabaseConnectTimeout (config dm)) (dial env (dials w)) = None ->
  exists g sqlDB w' evs,
    connectWithRetry_loop env (S fuel) a l (dm, w) =
    Ret None
      (set_healthStatus (set_RetryCount 0 (set_IsHealthy true (healthStatus dm)))
         (set_db (Some g) dm), w') /\
    gorm_DB g = inl sqlDB /\
    trace w' = trace w ++ evs /\
    retry_view evs = [Attempt] /\
    no_spawn evs = true /\
    spawned w' = spawned w /\
    dials w' = S (dials w) /\
    now w <= now w' /\
    heap w' (metrics dm) = refreshed (config dm) (pool_stats env (polls w)).
Proof.
  intros Ha Hmu H.
  destruct (target_accepts _ _ H) as (g & p & sqlDB & Hdial & Hg & Hp).
  destruct (connect_succeeds dm
              (set_trace (trace w ++ [EvLogInfo "Attempting to connect to database"]) w)
              g p sqlDB)
    as (w1 & evs1 & Hc & Htr & Hview & Hsp & _ & Hspawned & Hdials & Hnow & Hheap);
    try (destruct w; assumption).
  apply Z.leb_le in Ha.
  destruct dm as [d c h m lc], w as [t tr sp di pr po cl hp nl].
  destruct w1 as [t1 tr1 sp1 di1 pr1 po1 cl1 hp1 nl1].
  exists g, sqlDB.
  cbn [connectWithRetry_loop]. unfold bind at 1. cbn -[connect Z.leb] in *.
  rewrite Ha. unfold bind at 1. cbn -[connect].
  unfold bind at 1. rewrite Hc. subst.
  unfold bind, write_health, logger_Info, emit, ret. cbn.
  do 2 eexists. split; [reflexivity|]. split; [exact Hg|]. cbn.
  rewrite <- !app_assoc. split; [reflexivity|].
  rewrite !retry_view_app, Hview. unfold no_spawn in *. rewrite !forallb_app, Hsp.
  cbn. repeat split; try reflexivity; try lia. exact Hheap.
Qed.

(** [k] failed attempts, then a successful one. *)
Lemma retry_succeeds_after dm w fuel (k : nat) :
  let cfg := config dm in
  let N := DatabaseRetryAttempts cfg in
  Z.of_nat (S k) <= N -> N <= max_int ->
  mu dm = Unlocked ->
  (forall i, (i < k)%nat ->
     target_error (DatabaseConnectTimeout cfg) (dial env (dials w + i)) <> None) ->
  target_error (DatabaseConnectTimeout cfg) (dial env (dials w + k)) = None ->
  (k < fuel)%nat ->
  exists dm' w' evs,
    connectWithRetry env fuel (dm, w) = Ret None (dm', w') /\
    trace w' = trace w ++ evs /\
    retry_view evs = schedule (S k) (DatabaseRetryDelay cfg) /\
    count_attempts evs = S k /\
    count_sleeps evs = k /\
    slept (retry_view evs) = Z.of_nat k * DatabaseRetryDelay cfg /\
    now w + Z.of_nat k * Z.max 0 (DatabaseRetryDelay cfg) <= now w' /\
    RetryCount (healthStatus dm') = 0 /\
    IsHealthy (healthStatus dm') = true.
Proof.
  intros cfg N Hk Hmax Hmu Hfail Hok Hfuel.
  assert (Hf : (fuel = k + S (fuel - S k))%nat) by lia.
  unfold connectWithRetry. rewrite Hf.
  destruct (loop_failed_rounds k (S (fuel - S k)) 1 None dm w)
    as (l1 & h1 & w1 & evs1 & Hrun1 & _ & Htr1 & Hview1 & Hsp1 & Hspawned1 & Hdials1 & Hnow1);
    [lia | fold cfg; fold N; lia | fold cfg; fold N; lia | exact Hfail |].
  rewrite Hrun1.
  destruct (loop_successful_attempt (fuel - S k) (1 + Z.of_nat k) l1 (set_healthStatus h1 dm) w1)
    as (g & sqlDB & w2 & evs2 & Hrun2 & _ & Htr2 & Hview2 & _ & _ & _ & Hnow2 & _).
  { destruct dm; fields. subst N cfg. fields. lia. }
  { destruct dm; fields. exact Hmu. }
  { destruct dm; fields. rewrite Hdials1. exact Hok. }
  rewrite Hrun2.
  assert (Hview : retry_view (evs1 ++ evs2) = schedule (S k) (DatabaseRetryDelay cfg)).
  { rewrite retry_view_app, Hview1, Hview2. reflexivity. }
  do 3 eexists. split; [reflexivity|].
  split; [rewrite Htr2, Htr1; symmetry; apply app_assoc|].
  split; [exact Hview|].
  split; [unfold count_attempts; rewrite Hview; apply schedule_attempts|].
  split; [unfold count_sleeps; rewrite Hview, schedule_sleeps; lia|].
  split; [rewrite Hview; apply schedule_slept|].
  split; [fold cfg in Hnow1; lia|].
  destruct dm; fields. split; reflexivity.
Qed.

(** Whatever the server does, the retry loop neither panics nor waits for
    the mutex nor starts a routine; when it returns without error, the
    manager holds a usable handle and a refreshed metrics snapshot. *)
Lemma connectWithRetry_loop_sound fuel : forall a l dm w,
  mu dm = Unlocked ->
  match connectWithRetry_loop env fuel a l (dm, w) with
  | Ret r (dm', w') =>
      exists evs,
        trace w' = trace w ++ evs /\
        no_spawn evs = true /\
        spawned w' = spawned w /\
        config dm' = config dm /\
        metrics dm' = metrics dm /\
        mu dm' = Unlocked /\
        match r with
        | None =>
            (exists g sqlDB, db dm' = Some g /\ gorm_DB g = inl sqlDB) /\
            (exists stats, heap w' (metrics dm) = refreshed (config dm) stats) /\
            IsHealthy (healthStatus dm') = true /\
            RetryCount (healthStatus dm') = 0
        | Some e => is_database_error e = true
        end
  | Panic _ | Blocked _ => False
  | OutOfFuel => True
  end.
Proof.
  induction fuel as [|fuel IH]; intros a l dm w Hmu; [exact I|].
  destruct (Z_le_gt_dec a (DatabaseRetryAttempts (config dm))) as [Ha|Ha].
  - destruct (target_error (DatabaseConnectTimeout (config dm)) (dial env (dials w)))
      as [e|] eqn:He.
    + destruct (loop_failed_attempt fuel a l dm w e Ha He)
        as (w1 & evs1 & Hrun & Htr & _ & Hsp & Hspawned & _ & _).
      rewrite Hrun.
      specialize (IH (wrap_int (a + 1)) (Some e)
                    (set_healthStatus (set_RetryCount a (healthStatus dm)) dm) w1).
      destruct (connectWithRetry_loop env fuel (wrap_int (a + 1)) (Some e)
                  (set_healthStatus (set_RetryCount a (healthStatus dm)) dm, w1))
        as [r [dm' w']| | |]; try (apply IH; destruct dm; exact Hmu).
      destruct IH as (evs & Htr' & Hsp' & Hspawned' & Hcfg & Hmet & Hmu' & Hr);
        [destruct dm; exact Hmu|].
      exists (evs1 ++ evs).
      split; [rewrite Htr', Htr; symmetry; apply app_assoc|].
      split; [unfold no_spawn in *; rewrite forallb_app, Hsp, Hsp'; reflexivity|].
      split; [congruence|].
      destruct dm; fields. auto.
    + destruct (loop_successful_attempt fuel a l dm w Ha Hmu He)
        as (g & sqlDB & w1 & evs1 & Hrun & Hg & Htr & _ & Hsp & Hspawned & _ & _ & Hheap).
      rewrite Hrun. exists evs1. destruct dm; fields.
      repeat split; eauto.
  - rewrite loop_exit by lia. exists []. rewrite app_nil_r. repeat split; assumption.
Qed.

(** *** The health checks *)

(** updateHealthStatus overwrites four fields under the exclusive lock and
    keeps [RetryCount]. *)
Lemma updateHealthStatus_run dm w isHealthy lastError responseTime :
  mu dm = Unlocked ->
  updateHealthStatus isHealthy lastError responseTime (dm, w) =
  Ret tt
    (set_healthStatus
       (mkHealthStatus isHealthy (now w) lastError responseTime
          (RetryCount (healthStatus dm))) dm,
     set_trace (trace w ++ [EvWriteHealth F_IsHealthy Locked;
                            EvWriteHealth F_LastCheck Locked;
                            EvWriteHealth F_LastError Locked;
                            EvWriteHealth F_ResponseTime Locked]) w).
Proof.
  intros Hmu. destruct dm as [d c h m lc], w as [t tr sp di pr po cl hp nl].
  fields. subst m. unfold updateHealthStatus, bind, defer. cbn.
  rewrite <- !app_assoc. reflexivity.
Qed.

(** getHealthStatus reads the status under the shared lock. *)
Lemma getHealthStatus_run dm w :
  mu dm = Unlocked ->
  getHealthStatus (dm, w) =
  Ret (healthStatus dm) (dm, set_trace (trace w ++ [EvReadHealth (RLocked 0)]) w).
Proof.
  intros Hmu. destruct dm as [d c h m lc], w as [t tr sp di pr po cl hp nl].
  fields. subst m. reflexivity.
Qed.

(** A probe returns [ping_result] and leaves the world [probed]. *)
Lemma PingContext_run sqlDB timeout p dm w :
  PingContext sqlDB timeout p (dm, w) =
  Ret (ping_result timeout p) (dm, probed sqlDB timeout p w).
Proof.
  destruct w as [t tr sp di pr po cl hp nl].
  unfold PingContext, ping_result, probed, bind. cbn.
  destruct (Z.max 0 (rtt p) <? timeout); reflexivity.
Qed.


(** HealthCheck when the handle gives its pool: the probe is sent and its
    result recorded. *)
Lemma HealthCheck_probe dm w g sqlDB :
  mu dm = Unlocked -> db dm = Some g -> gorm_DB g = inl sqlDB ->
  let timeout := DatabaseHealthTimeout (config dm) in
  let p := probe env (probes w) in
  let w1 := probed sqlDB timeout p (set_probes (S (probes w)) w) in
  let hs :=
    match ping_result timeout p with
    | Some err => mkHealthStatus false (now w1) (Error err) (time_Sub (now w1) (now w))
                    (RetryCount (healthStatus dm))
    | None => mkHealthStatus true (now w1) EmptyString (time_Sub (now w1) (now w))
                (RetryCount (healthStatus dm))
    end in
  HealthCheck env (dm, w) =
  Ret hs (set_healthStatus hs dm, set_trace (trace w1 ++ record_events) w1).
Proof.
  intros Hmu Hdb Hg timeout p w1 hs. unfold HealthCheck.
  unfold bind at 1. unfold time_Now at 1. destruct dm as [d c h m lc]; fields; subst.
  unfold bind at 1, get_config at 1. unfold bind at 1, dm_db_DB, bind at 1, get_db. fields.
  cbn [ret]. rewrite Hg. unfold bind at 1, next_probe.
  unfold bind at 1. rewrite PingContext_run.
  fold p. fold timeout. fold w1. subst hs.
  destruct (ping_result timeout p) as [err|];
    unfold bind at 1, time_Since; unfold bind at 1;
    rewrite updateHealthStatus_run by reflexivity;
    rewrite getHealthStatus_run by reflexivity;
    destruct w1; fields; rewrite <- app_assoc; reflexivity.
Qed.

(** FastHealthCheck on a status less than 10 s old. *)
Lemma FastHealthCheck_fresh dm w :
  mu dm <> Locked ->
  now w - LastCheck (healthStatus dm) < 10 * Second ->
  FastHealthCheck (dm, w) =
  Ret (healthStatus dm)
    (dm, set_trace (trace w ++ [EvReadHealth (rlock (mu dm)); EvReadHealth (rlock (mu dm))]) w).
Proof.
  intros Hmu Hage.
  apply (time_Sub_lt (now w) (LastCheck (healthStatus dm)) (10 * Second)) in Hage;
    [|unfold min_int, max_int, Second; lia].
  apply Z.ltb_lt in Hage.
  destruct dm as [d c h m lc], w as [t tr sp di pr po cl hp nl]. fields.
  unfold FastHealthCheck, bind, defer, mu_RLock, mu_RUnlock, read_health, time_Since.
  destruct m as [|n|]; [| |congruence]; fields; rewrite Hage; fields;
    rewrite <- app_assoc; reflexivity.
Qed.

(** FastHealthCheck on a status 10 s old or more. *)
Lemma FastHealthCheck_stale dm w :
  mu dm <> Locked ->
  10 * Second <= now w - LastCheck (healthStatus dm) ->
  FastHealthCheck (dm, w) =
  Ret (healthStatus dm)
    (dm, set_spawned (spawned w ++ [Task_HealthCheck])
           (set_trace (trace w ++ [EvReadHealth (rlock (mu dm));
                                   EvSpawn Task_HealthCheck;
                                   EvReadHealth (rlock (mu dm))]) w)).
Proof.
  intros Hmu Hage.
  assert (Hge : (time_Sub (now w) (LastCheck (healthStatus dm)) <? 10 * Second) = false).
  { apply Z.ltb_ge. unfold time_Sub, saturate, min_int, max_int, Second in *. lia. }
  destruct dm as [d c h m lc], w as [t tr sp di pr po cl hp nl]. fields.
  unfold FastHealthCheck, bind, defer, mu_RLock, mu_RUnlock, read_health, time_Since.
  destruct m as [|n|]; [| |congruence]; fields; rewrite Hge;
    unfold go, bind, emit; fields; rewrite <- !app_assoc; reflexivity.
Qed.

(** *** Metrics and shutdown *)

(** GetMetrics reads the struct behind [dm.metrics] under the shared lock. *)
Lemma GetMetrics_run dm w :
  mu dm <> Locked ->
  GetMetrics (dm, w) =
  Ret (heap w (metrics dm)) (dm, set_trace (trace w ++ [EvReadMetrics (rlock (mu dm))]) w).
Proof.
  intros Hmu. destruct dm as [d c h m lc], w as [t tr sp di pr po cl hp nl]. fields.
  unfold GetMetrics, bind, defer, mu_RLock, mu_RUnlock, read_metrics.
  destruct m as [|n|]; [| |congruence]; reflexivity.
Qed.

(** Close when the handle cannot be obtained. *)
Lemma Close_handle_error dm w g err :
  mu dm = Unlocked -> db dm = Some g -> gorm_DB g = inr err ->
  Close env (dm, w) =
  Ret (Some (close_error "Failed to get SQL DB for closing" err)) (dm, w).
Proof.
  intros Hmu Hdb Hg. destruct dm as [d c h m lc], w as [t tr sp di pr po cl hp nl].
  fields. subst. unfold Close, bind, defer, mu_Lock, mu_Unlock, get_db. fields.
  rewrite Hg. reflexivity.
Qed.

(** Close when the handle gives its pool. *)
Lemma Close_pool dm w g sqlDB :
  mu dm = Unlocked -> db dm = Some g -> gorm_DB g = inl sqlDB ->
  Close env (dm, w) =
  match pool_close env (closes w) with
  | None =>
      Ret None
        (dm, set_closes (S (closes w))
               (set_trace (trace w ++ [EvClose sqlDB;
                                       EvLogInfo "Database connection closed gracefully"]) w))
  | Some err =>
      Ret (Some (close_error "Failed to close database connection" err))
        (dm, set_closes (S (closes w))
               (set_trace (trace w ++ [EvClose sqlDB;
                                       EvLogError "Failed to close database connection"]) w))
  end.
Proof.
  intros Hmu Hdb Hg. destruct dm as [d c h m lc], w as [t tr sp di pr po cl hp nl].
  fields. subst. unfold Close, bind, defer, mu_Lock, mu_Unlock, get_db. fields.
  rewrite Hg. unfold sql_Close, bind, emit. fields.
  destruct (pool_close env cl); unfold logger_Error, logger_Info, emit, ret; fields;
    rewrite <- app_assoc; reflexivity.
Qed.

(** Close on a manager without connection does nothing. *)
Lemma Close_nil dm w :
  mu dm = Unlocked -> db dm = None -> Close env (dm, w) = Ret None (dm, w).
Proof.
  intros Hmu Hdb. destruct dm as [d c h m lc], w as [t tr sp di pr po cl hp nl].
  fields. subst. reflexivity.
Qed.

(** *** Construction *)

Lemma refreshed_current cfg stats : metrics_current cfg (refreshed cfg stats).
Proof. repeat split. Qed.

(** NewDatabaseManager returns either a manager in service, after starting
    its two routines, or a database error and no manager, having started
    nothing. *)
Lemma NewDatabaseManager_sound fuel cfg w :
  match NewDatabaseManager env fuel cfg w with
  | Some (Some dm, None, w') =>
      serving (dm, w') /\ config dm = cfg /\
      exists evs,
        trace w' = trace w ++ evs ++ construction_spawns /\
        no_spawn evs = true /\
        spawned w' = spawned w ++ [Task_startHealthCheck; Task_startMetricsCollection]
  | Some (None, Some e, w') =>
      is_database_error e = true /\
      exists evs,
        trace w' = trace w ++ evs /\ no_spawn evs = true /\ spawned w' = spawned w
  | Some _ => False
  | None => True
  end.
Proof.
  unfold NewDatabaseManager, connectWithRetry.
  set (w0 := set_next_loc _ _).
  set (manager := mkDatabaseManager _ _ _ _ _).
  pose proof (connectWithRetry_loop_sound fuel 1 None manager w0 eq_refl) as H.
  destruct (connectWithRetry_loop env fuel 1 None (manager, w0)) as [r [dm w1]| | |];
    try exact I.
  destruct H as (evs & Htr & Hsp & Hspawned & Hcfg & Hmet & Hmu & Hr).
  assert (Htr0 : trace w0 = trace w) by (destruct w; reflexivity).
  assert (Hsp0 : spawned w0 = spawned w) by (destruct w; reflexivity).
  destruct r as [e|].
  - split; [reflexivity|]. exists evs. rewrite Htr, Htr0, Hspawned, Hsp0. auto.
  - destruct Hr as (Hdb & (stats & Hheap) & _ & _).
    destruct dm as [d c h m lc], w1 as [t tr sp di pr po cl hp nl].
    unfold go, bind, emit. fields. subst.
    split; [|split; [reflexivity|]].
    + unfold serving; fields. repeat split; try assumption.
      all: subst manager; cbn [metrics config] in *; rewrite Hheap; reflexivity.
    + exists evs. rewrite Htr0, Hsp0, <- !app_assoc. auto.
Qed.

(** *** The manager in service *)

(** Every step keeps the manager in service and its configuration. *)
Lemma step_serving s s' :
  serving s -> step env s s' -> serving s' /\ config (fst s') = config (fst s).
Proof.
  intros (Hmu & (g & sqlDB & Hdb & Hg) & Hm) Hstep.
  assert (Hmu' : mu (fst s) <> Locked) by (rewrite Hmu; discriminate).
  destruct Hstep as [[dm w] hs s' H|[dm w] hs s' H|[dm w] hs s' H|[dm w] s' H
                    |[dm w] m s' H|[dm w] r s' H|dm w d]; fields.
  - rewrite (HealthCheck_probe dm w g sqlDB Hmu Hdb Hg) in H.
    inversion H; subst; clear H. unfold serving.
    destruct dm, w; fields. repeat split; eauto; apply Hm.
  - destruct (Z_lt_ge_dec (now w - LastCheck (healthStatus dm)) (10 * Second)) as [Hage|Hage].
    + rewrite (FastHealthCheck_fresh dm w Hmu' Hage) in H.
      inversion H; subst; clear H. unfold serving.
      destruct dm, w; fields. repeat split; eauto; apply Hm.
    + rewrite (FastHealthCheck_stale dm w Hmu') in H by lia.
      inversion H; subst; clear H. unfold serving.
      destruct dm, w; fields. repeat split; eauto; apply Hm.
  - unfold GetHealthStatus in H. rewrite (getHealthStatus_run dm w Hmu) in H.
    inversion H; subst; clear H. unfold serving.
    destruct dm, w; fields. repeat split; eauto; apply Hm.
  - rewrite (updateMetrics_refreshes dm w g sqlDB Hmu Hdb Hg) in H.
    inversion H; subst; clear H. unfold serving.
    destruct dm, w; fields. rewrite store_same.
    repeat split; eauto.
  - rewrite (GetMetrics_run dm w Hmu') in H.
    inversion H; subst; clear H. unfold serving.
    destruct dm, w; fields. repeat split; eauto; apply Hm.
  - rewrite (Close_pool dm w g sqlDB Hmu Hdb Hg) in H.
    destruct (pool_close env (closes w)); inversion H; subst; clear H; unfold serving;
      destruct dm, w; fields; repeat split; eauto; apply Hm.
  - unfold serving, elapse. destruct dm, w; fields. repeat split; eauto; apply Hm.
Qed.

Lemma reachable_serving cfg s :
  reachable env cfg s -> serving s /\ config (fst s) = cfg.
Proof.
  induction 1 as [fuel w dm w' Hnew|s s' _ [IH Hcfg] Hstep].
  - pose proof (NewDatabaseManager_sound fuel cfg w) as H.
    rewrite Hnew in H. destruct H as (Hs & Hc & _). auto.
  - destruct (step_serving s s' IH Hstep) as [Hs Hc]. split; congruence.
Qed.

(** In a step, [HealthStatus] is written under the exclusive lock only and
    read under the lock only. *)
Lemma step_writes_guarded s s' :
  serving s -> step env s s' ->
  exists evs,
    trace (snd s') = trace (snd s) ++ evs /\
    health_writes_exclusive evs = true /\
    health_reads_locked evs = true.
Proof.
  intros (Hmu & (g & sqlDB & Hdb & Hg) & Hm) Hstep.
  assert (Hmu' : mu (fst s) <> Locked) by (rewrite Hmu; discriminate).
  destruct Hstep as [[dm w] hs s' H|[dm w] hs s' H|[dm w] hs s' H|[dm w] s' H
                    |[dm w] m s' H|[dm w] r s' H|dm w d]; fields.
  - rewrite (HealthCheck_probe dm w g sqlDB Hmu Hdb Hg) in H.
    inversion H; subst; clear H. destruct w; unfold probed; fields.
    rewrite <- app_assoc. eexists. repeat split; reflexivity.
  - destruct (Z_lt_ge_dec (now w - LastCheck (healthStatus dm)) (10 * Second)) as [Hage|Hage].
    + rewrite (FastHealthCheck_fresh dm w Hmu' Hage) in H.
      inversion H; subst; clear H. destruct w; fields. rewrite ?Hmu.
      eexists. repeat split; reflexivity.
    + rewrite (FastHealthCheck_stale dm w Hmu') in H by lia.
      inversion H; subst; clear H. destruct w; fields. rewrite ?Hmu.
      eexists. repeat split; reflexivity.
  - unfold GetHealthStatus in H. rewrite (getHealthStatus_run dm w Hmu) in H.
    inversion H; subst; clear H. destruct w; fields. rewrite ?Hmu.
      eexists. repeat split; reflexivity.
  - rewrite (updateMetrics_refreshes dm w g sqlDB Hmu Hdb Hg) in H.
    inversion H; subst; clear H. destruct w; fields. rewrite ?Hmu.
      eexists. repeat split; reflexivity.
  - rewrite (GetMetrics_run dm w Hmu') in H.
    inversion H; subst; clear H. destruct w; fields. rewrite ?Hmu.
      eexists. repeat split; reflexivity.
  - rewrite (Close_pool dm w g sqlDB Hmu Hdb Hg) in H.
    destruct (pool_close env (closes w)); inversion H; subst; clear H;
      destruct w; fields; eexists; repeat split; reflexivity.
  - exists []. destruct w; unfold elapse; fields. rewrite app_nil_r. repeat split; reflexivity.
Qed.

(** ** The properties of the specification *)


(** C5.  For every [k] with [1 <= k <= N], if the connection target fails
    on the attempts [1 .. k-1] and succeeds on attempt [k], connectWithRetry
    returns nil after exactly [k] attempts and [k - 1] sleeps of the
    configured delay (so at least [(k-1) x delay] has elapsed), and leaves
    [RetryCount = 0] and [IsHealthy = true]. *)
Theorem connectWithRetry_succeeds_at dm w fuel (k : nat) :
  let cfg := config dm in
  let N := DatabaseRetryAttempts cfg in
  (1 <= k)%nat -> Z.of_nat k <= N -> N <= max_int ->
  mu dm = Unlocked ->
  (forall j, (1 <= j < k)%nat ->
     target_error (DatabaseConnectTimeout cfg) (dial env (dials w + (j - 1))) <> None) ->
  target_error (DatabaseConnectTimeout cfg) (dial env (dials w + (k - 1))) = None ->
  (k <= fuel)%nat ->
  exists dm' w' evs,
    connectWithRetry env fuel (dm, w) = Ret None (dm', w') /\
    trace w' = trace w ++ evs /\
    retry_view evs = schedule k (DatabaseRetryDelay cfg) /\
    count_attempts evs = k /\
    count_sleeps evs = (k - 1)%nat /\
    slept (retry_view evs) = (Z.of_nat k - 1) * DatabaseRetryDelay cfg /\
    now w + (Z.of_nat k - 1) * Z.max 0 (DatabaseRetryDelay cfg) <= now w' /\
    RetryCount (healthStatus dm') = 0 /\
    IsHealthy (healthStatus dm') = true.
Proof.
  intros cfg N Hk HkN Hmax Hmu Hfail Hok Hfuel.
  destruct k as [|k]; [lia|].
  replace (S k - 1)%nat with k in * by lia.
  replace (Z.of_nat (S k) - 1) with (Z.of_nat k) by lia.
  apply (retry_succeeds_after dm w fuel k); try assumption; try lia.
  intros i Hi. replace i with (S i - 1)%nat by lia. apply Hfail. lia.
Qed.


(** C2, as the code has it.  Once the manager is built, every write to
    [HealthStatus] (they are all made by updateHealthStatus) happens under
    the exclusive lock, and every read under the lock.  The writes of the
    connect-retry routine are made without the lock, but during
    construction only: in the events of NewDatabaseManager they all come
    before the first routine is started. *)
Theorem health_writes_guarded_once_built :
  (forall s s', serving s -> step env s s' ->
     exists evs,
       trace (snd s') = trace (snd s) ++ evs /\
       health_writes_exclusive evs = true /\
       health_reads_locked evs = true) /\
  (forall fuel cfg w r w',
     NewDatabaseManager env fuel cfg w = Some (r, w') ->
     exists before after,
       trace w' = trace w ++ before ++ after /\
       no_spawn before = true /\
       forallb (fun e => negb (is_health_write e)) after = true).
Proof.
  split; [exact step_writes_guarded|].
  intros fuel cfg w r w' Hnew.
  pose proof (NewDatabaseManager_sound fuel cfg w) as H. rewrite Hnew in H.
  destruct r as [[dm|] [e|]]; try contradiction.
  - destruct H as (_ & _ & evs & Htr & Hsp & _).
    exists evs, construction_spawns. auto.
  - destruct H as (_ & evs & Htr & Hsp & _).
    exists evs, []. rewrite app_nil_r. auto.
Qed.

(** C3.  In every state of a manager built by NewDatabaseManager (which
    refreshes the metrics before it returns), GetMetrics returns the value
    of the metrics struct, leaving the struct and the manager as they are,
    and the bounds in it are the configured ones. *)
Theorem GetMetrics_reports_configured_bounds cfg dm w :
  reachable env cfg (dm, w) ->
  exists m w',
    GetMetrics (dm, w) = Ret m (dm, w') /\
    m = heap w (metrics dm) /\
    heap w' = heap w /\
    MaxOpenConnections m = DatabaseMaxOpenConns cfg /\
    MaxIdleConnections m = DatabaseMaxIdleConns cfg.
Proof.
  intros Hreach.
  destruct (reachable_serving cfg (dm, w) Hreach) as [(Hmu & _ & (_ & Hopen & Hidle)) Hcfg].
  fields. subst cfg.
  rewrite GetMetrics_run by (rewrite Hmu; discriminate).
  do 2 eexists. split; [reflexivity|].
  destruct w; fields. auto.
Qed.

(** C10.  In every state of a manager built by NewDatabaseManager, the
    snapshot GetMetrics returns has [TotalConnections] equal to
    [OpenConnections]; a refresh writes the number of open connections the
    pool reports into both. *)
Theorem GetMetrics_total_is_open cfg dm w :
  reachable env cfg (dm, w) ->
  (exists m w',
     GetMetrics (dm, w) = Ret m (dm, w') /\
     TotalConnections m = OpenConnections m) /\
  (exists w1 m w2,
     updateMetrics env (dm, w) = Ret tt (dm, w1) /\
     GetMetrics (dm, w1) = Ret m (dm, w2) /\
     TotalConnections m = stats_OpenConnections (pool_stats env (polls w)) /\
     OpenConnections m = stats_OpenConnections (pool_stats env (polls w))).
Proof.
  intros Hreach.
  destruct (reachable_serving cfg (dm, w) Hreach)
    as [(Hmu & (g & sqlDB & Hdb & Hg) & (Heq & _)) _].
  fields. split.
  - rewrite GetMetrics_run by (rewrite Hmu; discriminate).
    do 2 eexists. split; [reflexivity|]. exact Heq.
  - rewrite (updateMetrics_refreshes dm w g sqlDB Hmu Hdb Hg).
    eexists. rewrite GetMetrics_run by (rewrite Hmu; discriminate).
    do 2 eexists. split; [reflexivity|]. split; [reflexivity|].
    destruct w; fields. rewrite store_same. split; reflexivity.
Qed.


(** C7.  After a full health check that succeeds, two calls of
    FastHealthCheck made in the next 10 seconds both return the snapshot
    that check recorded; neither sends a probe nor starts a routine. *)
Theorem FastHealthCheck_serves_cache dm w g sqlDB (d1 d2 : Duration) :
  mu dm = Unlocked -> db dm = Some g -> gorm_DB g = inl sqlDB ->
  ping_result (DatabaseHealthTimeout (config dm)) (probe env (probes w)) = None ->
  0 <= d1 -> 0 <= d2 -> d1 + d2 < 10 * Second ->
  exists hs dm1 w1 w2 w3 evs,
    HealthCheck env (dm, w) = Ret hs (dm1, w1) /\
    IsHealthy hs = true /\
    FastHealthCheck (dm1, elapse d1 w1) = Ret hs (dm1, w2) /\
    FastHealthCheck (dm1, elapse d2 w2) = Ret hs (dm1, w3) /\
    trace w3 = trace w1 ++ evs /\
    forallb (fun e => negb (is_ping e || is_spawn e)) evs = true /\
    probes w3 = probes w1 /\
    spawned w3 = spawned w1.
Proof.
  intros Hmu Hdb Hg Hping H1 H2 H12.
  rewrite (HealthCheck_probe dm w g sqlDB Hmu Hdb Hg), Hping.
  set (hs := mkHealthStatus true _ _ _ _).
  set (w1 := set_trace _ _).
  assert (Hmu1 : mu (set_healthStatus hs dm) <> Locked)
    by (destruct dm; fields; rewrite Hmu; discriminate).
  assert (Hlast : LastCheck (healthStatus (set_healthStatus hs dm)) = now w1)
    by (destruct dm, w; reflexivity).
  set (dm1 := set_healthStatus hs dm) in *.
  assert (E1 := FastHealthCheck_fresh dm1 (elapse d1 w1) Hmu1).
  rewrite Hlast in E1. specialize (E1 ltac:(destruct w1; unfold elapse; fields; lia)).
  set (w2 := set_trace _ (elapse d1 w1)) in E1.
  assert (E2 := FastHealthCheck_fresh dm1 (elapse d2 w2) Hmu1).
  rewrite Hlast in E2.
  specialize (E2 ltac:(subst w2; destruct w1; unfold elapse; fields; lia)).
  set (w3 := set_trace _ (elapse d2 w2)) in E2.
  exists hs, dm1, w1, w2, w3.
  exists [EvReadHealth (rlock (mu dm1)); EvReadHealth (rlock (mu dm1));
          EvReadHealth (rlock (mu dm1)); EvReadHealth (rlock (mu dm1))].
  split; [reflexivity|]. split; [reflexivity|].
  split; [exact E1|]. split; [exact E2|].
  subst w3 w2. destruct w1; unfold elapse; fields. rewrite <- app_assoc.
  repeat split; reflexivity.
Qed.


(** C9.  On a manager that holds a connection, Close closes the pool once
    and returns nil when the close succeeds; when the handle cannot be
    obtained or the close fails it returns that error wrapped as a database
    error. *)
Theorem Close_releases_connection dm w g :
  mu dm = Unlocked -> db dm = Some g ->
  exists r w',
    Close env (dm, w) = Ret r (dm, w') /\
    match gorm_DB g with
    | inr err =>
        r = Some (close_error "Failed to get SQL DB for closing" err) /\ w' = w
    | inl sqlDB =>
        (exists log, trace w' = trace w ++ [EvClose sqlDB; log]) /\
        closes w' = S (closes w) /\
        match pool_close env (closes w) with
        | None => r = None
        | Some err => r = Some (close_error "Failed to close database connection" err)
        end
    end /\
    match r with
    | Some e => is_database_error e = true
    | None => True
    end.
Proof.
  intros Hmu Hdb. destruct (gorm_DB g) as [sqlDB|err] eqn:Hg.
  - rewrite (Close_pool dm w g sqlDB Hmu Hdb Hg).
    destruct (pool_close env (closes w)) as [err|];
      do 2 eexists; (split; [reflexivity|]); destruct w; fields;
      repeat split; eauto.
  - rewrite (Close_handle_error dm w g err Hmu Hdb Hg).
    do 2 eexists. split; [reflexivity|]. repeat split.
Qed.

End Properties.

(** ** The properties on the scenarios *)


Lemma connectWithRetry_succeeds_at_witness :
  exists dm' w' evs,
    connectWithRetry env_flaky 3 (fresh cfg_default, w_start) = Ret None (dm', w') /\
    trace w' = trace w_start ++ evs /\
    retry_view evs = [Attempt; Sleep Second; Attempt; Sleep Second; Attempt] /\
    count_attempts evs = 3%nat /\
    count_sleeps evs = 2%nat /\
    slept (retry_view evs) = 2 * Second /\
    now w_start + 2 * Second <= now w' /\
    RetryCount (healthStatus dm') = 0 /\
    IsHealthy (healthStatus dm') = true.
Proof.
  apply (connectWithRetry_succeeds_at env_flaky (fresh cfg_default) w_start 3 3).
  - lia.
  - vm_compute. discriminate.
  - vm_compute. discriminate.
  - reflexivity.
  - intros j Hj. assert (Hj' : j = 1%nat \/ j = 2%nat) by lia.
    destruct Hj' as [->| ->]; vm_compute; discriminate.
  - vm_compute. reflexivity.
  - lia.
Defined.


Lemma built_serving : serving built.
Proof.
  split; [reflexivity|]. split.
  - exists pool0, 0%nat. split; reflexivity.
  - repeat split.
Defined.

Lemma built_reachable : reachable env_up cfg_default (fst built, snd built).
Proof.
  apply reach_new with (fuel := 1%nat) (w := w_start). vm_compute. reflexivity.
Defined.

Lemma health_writes_guarded_once_built_witness :
  (exists evs,
     trace (snd checked) = trace (snd built) ++ evs /\
     health_writes_exclusive evs = true /\
     health_reads_locked evs = true) /\
  (exists before after,
     trace (snd built) = trace w_start ++ before ++ after /\
     no_spawn before = true /\
     forallb (fun e => negb (is_health_write e)) after = true).
Proof.
  destruct (health_writes_guarded_once_built env_up) as [Hstep Hnew]. split.
  - apply (Hstep built checked built_serving).
    eapply step_HealthCheck. vm_compute. reflexivity.
  - apply (Hnew 1%nat cfg_default w_start (Some (fst built), None) (snd built)).
    vm_compute. reflexivity.
Defined.

Lemma GetMetrics_reports_configured_bounds_witness :
  exists m w',
    GetMetrics (fst built, snd built) = Ret m (fst built, w') /\
    m = heap (snd built) (metrics (fst built)) /\
    heap w' = heap (snd built) /\
    MaxOpenConnections m = 25 /\
    MaxIdleConnections m = 5.
Proof.
  apply (GetMetrics_reports_configured_bounds env_up cfg_default (fst built) (snd built)).
  exact built_reachable.
Defined.

Lemma GetMetrics_total_is_open_witness :
  (exists m w',
     GetMetrics (fst built, snd built) = Ret m (fst built, w') /\
     TotalConnections m = OpenConnections m) /\
  (exists w1 m w2,
     updateMetrics env_up (fst built, snd built) = Ret tt (fst built, w1) /\
     GetMetrics (fst built, w1) = Ret m (fst built, w2) /\
     TotalConnections m = 1 /\
     OpenConnections m = 1).
Proof.
  apply (GetMetrics_total_is_open env_up cfg_default (fst built) (snd built)).
  exact built_reachable.
Defined.


Lemma FastHealthCheck_serves_cache_witness :
  exists hs dm1 w1 w2 w3 evs,
    HealthCheck env_up (connected cfg_default, w_start) = Ret hs (dm1, w1) /\
    IsHealthy hs = true /\
    FastHealthCheck (dm1, elapse (3 * Second) w1) = Ret hs (dm1, w2) /\
    FastHealthCheck (dm1, elapse (4 * Second) w2) = Ret hs (dm1, w3) /\
    trace w3 = trace w1 ++ evs /\
    forallb (fun e => negb (is_ping e || is_spawn e)) evs = true /\
    probes w3 = probes w1 /\
    spawned w3 = spawned w1.
Proof.
  apply (FastHealthCheck_serves_cache env_up (connected cfg_default) w_start pool0 0%nat
           (3 * Second) (4 * Second)).
  - reflexivity.
  - reflexivity.
  - reflexivity.
  - vm_compute. reflexivity.
  - vm_compute. discriminate.
  - vm_compute. discriminate.
  - vm_compute. reflexivity.
Defined.


Lemma Close_releases_connection_witness :
  exists r w',
    Close env_up (connected cfg_default, w_start) = Ret r (connected cfg_default, w') /\
    ((exists log, trace w' = trace w_start ++ [EvClose 0%nat; log]) /\
     closes w' = 1%nat /\
     r = None) /\
    match r with
    | Some e => is_database_error e = true
    | None => True
    end.
Proof.
  apply (Close_releases_connection env_up (connected cfg_default) w_start pool0).
  - reflexivity.
  - reflexivity.
Defined.

(** C2, as the specification states it, fails on the retry loop: built
    against a server that accepts the third connection, the manager has
    written [RetryCount] three times and [IsHealthy] once, each time with
    the mutex free. *)
Lemma connect_retry_writes_without_lock :
  exists dm w',
    NewDatabaseManager env_flaky 3 cfg_default w_start = Some (Some dm, None, w') /\
    health_writes_exclusive (trace w') = false /\
    filter unguarded_health_write (trace w') =
      [EvWriteHealth F_RetryCount Unlocked; EvWriteHealth F_RetryCount Unlocked;
       EvWriteHealth F_IsHealthy Unlocked; EvWriteHealth F_RetryCount Unlocked].
Proof.
  do 2 eexists. split; [vm_compute; reflexivity|].
  split; vm_compute; reflexivity.
Qed.


(** ** More properties of the manager *)

Section MoreProperties.

Variable env : Env.

(** [n] failed attempts in a row, the last allowed one included: the record
    of the retry count and the error kept for the final report. *)
Lemma loop_failed_rounds_exact n : forall fuel a l dm w,
  1 <= a ->
  a + Z.of_nat n <= DatabaseRetryAttempts (config dm) + 1 ->
  DatabaseRetryAttempts (config dm) < max_int ->
  (forall i, (i < n)%nat ->
     target_error (DatabaseConnectTimeout (config dm)) (dial env (dials w + i)) <> None) ->
  exists w' evs,
    connectWithRetry_loop env (n + fuel) a l (dm, w) =
    connectWithRetry_loop env fuel (a + Z.of_nat n)
      (last_failure env (DatabaseConnectTimeout (config dm)) (dials w) n l)
      (set_healthStatus (retried n a (healthStatus dm)) dm, w') /\
    trace w' = trace w ++ evs /\
    count_attempts evs = n /\
    no_spawn evs = true /\
    spawned w' = spawned w /\
    dials w' = (dials w + n)%nat.
Proof.
  induction n as [|n IH]; intros fuel a l dm w H1 HN Hmax Hfail.
  - exists w, []. rewrite Z.add_0_r, app_nil_r, Nat.add_0_r.
    destruct dm; repeat split; reflexivity.
  - destruct (target_error (DatabaseConnectTimeout (config dm)) (dial env (dials w)))
      as [e|] eqn:He.
    2:{ exfalso. apply (Hfail 0%nat); [lia|]. now rewrite Nat.add_0_r. }
    destruct (loop_failed_attempt env (n + fuel) a l dm w e)
      as (w1 & evs1 & Hrun & Htr & Hview & Hsp & Hspawned & Hdials & _);
      [lia | exact He |].
    rewrite wrap_int_id in Hrun by (unfold min_int, max_int in *; lia).
    destruct (IH fuel (a + 1) (Some e)
                (set_healthStatus (set_RetryCount a (healthStatus dm)) dm) w1)
      as (w' & evs & Hrun' & Htr' & Hcount' & Hsp' & Hspawned' & Hdials').
    { lia. }
    { destruct dm; fields. lia. }
    { destruct dm; fields. lia. }
    { intros i Hi. destruct dm; fields. rewrite Hdials.
      replace (S (dials w) + i)%nat with (dials w + S i)%nat by lia. apply Hfail. lia. }
    exists w', (evs1 ++ evs).
    change (S n + fuel)%nat with (S (n + fuel)). rewrite Hrun, Hrun'.
    split.
    { replace (a + 1 + Z.of_nat n) with (a + Z.of_nat (S n)) by lia.
      f_equal.
      - destruct n as [|m]; cbn [last_failure].
        + rewrite Nat.add_0_r. symmetry. exact He.
        + destruct dm; fields. rewrite Hdials. f_equal. f_equal. lia.
      - f_equal. destruct dm as [d c h m lc]; fields.
        destruct n as [|k]; cbn [retried]; unfold set_healthStatus; fields.
        + rewrite Z.add_0_r. reflexivity.
        + destruct h; unfold set_RetryCount; fields. do 2 f_equal. lia. }
    split; [rewrite Htr', Htr; symmetry; apply app_assoc|].
    split.
    { unfold count_attempts in *. rewrite retry_view_app, filter_app, length_app, Hcount', Hview.
      destruct (a <? DatabaseRetryAttempts (config dm)); reflexivity. }
    split; [unfold no_spawn in *; rewrite forallb_app, Hsp, Hsp'; reflexivity|].
    split; [congruence|]. lia.
Qed.

(** The retry loop writes [IsHealthy] and [RetryCount] only: the time, the
    error and the duration of the last check are as they were. *)
Lemma connectWithRetry_loop_keeps_check fuel : forall a l dm w,
  mu dm = Unlocked ->
  match connectWithRetry_loop env fuel a l (dm, w) with
  | Ret r (dm', w') =>
      LastCheck (healthStatus dm') = LastCheck (healthStatus dm) /\
      LastError (healthStatus dm') = LastError (healthStatus dm) /\
      ResponseTime (healthStatus dm') = ResponseTime (healthStatus dm)
  | _ => True
  end.
Proof.
  induction fuel as [|fuel IH]; intros a l dm w Hmu; [exact I|].
  destruct (Z_le_gt_dec a (DatabaseRetryAttempts (config dm))) as [Ha|Ha].
  - destruct (target_error (DatabaseConnectTimeout (config dm)) (dial env (dials w)))
      as [e|] eqn:He.
    + destruct (loop_failed_attempt env fuel a l dm w e Ha He) as (w1 & evs1 & Hrun & _).
      rewrite Hrun.
      specialize (IH (wrap_int (a + 1)) (Some e)
                    (set_healthStatus (set_RetryCount a (healthStatus dm)) dm) w1).
      destruct (connectWithRetry_loop env fuel (wrap_int (a + 1)) (Some e)
                  (set_healthStatus (set_RetryCount a (healthStatus dm)) dm, w1))
        as [r [dm' w']| | |]; try exact I.
      destruct dm; fields. apply IH. exact Hmu.
    + destruct (loop_successful_attempt env fuel a l dm w Ha Hmu He)
        as (g & sqlDB & w1 & evs1 & Hrun & _).
      rewrite Hrun. destruct dm; fields. repeat split.
  - rewrite loop_exit by lia. repeat split.
Qed.

(** A manager NewDatabaseManager returns has the status [built_status]. *)
Lemma NewDatabaseManager_status fuel cfg w dm r w' :
  NewDatabaseManager env fuel cfg w = Some (Some dm, r, w') ->
  healthStatus dm = built_status.
Proof.
  unfold NewDatabaseManager, connectWithRetry.
  set (w0 := set_next_loc _ _).
  set (manager := mkDatabaseManager _ _ _ _ _).
  pose proof (connectWithRetry_loop_sound env fuel 1 None manager w0 eq_refl) as Hs.
  pose proof (connectWithRetry_loop_keeps_check fuel 1 None manager w0 eq_refl) as Hk.
  destruct (connectWithRetry_loop env fuel 1 None (manager, w0)) as [o [dm1 w1]| | |];
    try discriminate.
  destruct o as [e|]; [discriminate|].
  destruct Hs as (_ & _ & _ & _ & _ & _ & _ & _ & _ & Hh & Hrc).
  destruct Hk as (Hlc & Hle & Hrt).
  destruct dm1 as [d c h m lc], w1 as [t tr sp di pr po cl hp nl].
  unfold go, bind, emit. fields. intros H. inversion H; subst; clear H. fields.
  destruct h as [ih lc' le rt rc]. fields. subst. reflexivity.
Qed.

(** X1.  When the server accepts the [k]-th attempt (the earlier ones having
    failed, and [k] being within the configured attempts), NewDatabaseManager
    returns a manager and no error.  The manager is healthy with a retry
    count of 0 and no check recorded yet, its mutex is free, it holds a
    usable handle and a refreshed metrics snapshot, and the two background
    routines are started, the health check first, after all the attempts. *)
Theorem NewDatabaseManager_builds_on_success cfg w fuel (k : nat) :
  let N := DatabaseRetryAttempts cfg in
  (1 <= k)%nat -> Z.of_nat k <= N -> N <= max_int ->
  (forall j, (1 <= j < k)%nat ->
     target_error (DatabaseConnectTimeout cfg) (dial env (dials w + (j - 1))) <> None) ->
  target_error (DatabaseConnectTimeout cfg) (dial env (dials w + (k - 1))) = None ->
  (k <= fuel)%nat ->
  exists dm w' evs,
    NewDatabaseManager env fuel cfg w = Some (Some dm, None, w') /\
    config dm = cfg /\
    mu dm = Unlocked /\
    healthStatus dm = built_status /\
    (exists g sqlDB, db dm = Some g /\ gorm_DB g = inl sqlDB) /\
    metrics_current cfg (heap w' (metrics dm)) /\
    trace w' = trace w ++ evs ++ construction_spawns /\
    count_attempts evs = k /\
    no_spawn evs = true /\
    spawned w' = spawned w ++ [Task_startHealthCheck; Task_startMetricsCollection].
Proof.
  intros N Hk HkN Hmax Hfail Hok Hfuel.
  destruct k as [|k]; [lia|]. replace (S k - 1)%nat with k in Hok by lia.
  pose proof (NewDatabaseManager_sound env fuel cfg w) as Hs.
  pose proof (NewDatabaseManager_status fuel cfg w) as Hst.
  unfold NewDatabaseManager in *.
  set (w0 := set_next_loc _ _) in *.
  set (manager := mkDatabaseManager _ _ _ _ _) in *.
  assert (Hd0 : dials w0 = dials w) by (destruct w; reflexivity).
  assert (Ht0 : trace w0 = trace w) by (destruct w; reflexivity).
  destruct (retry_succeeds_after env manager w0 fuel k)
    as (dm1 & w1 & evs & Hrun & Htr & _ & Hcount & _);
    try assumption; try reflexivity; try lia.
  { intros i Hi. rewrite Hd0. replace i with (S i - 1)%nat by lia. apply Hfail. lia. }
  rewrite Hrun in *. subst w0.
  destruct dm1 as [d1 c1 h1 m1 l1], w1 as [t1 tr1 sp1 di1 pr1 po1 cl1 hp1 nl1].
  unfold go, bind, emit in *. fields.
  destruct Hs as ((Hmu & Hdb & Hm) & Hcfg & evs' & Htr' & Hsp' & Hspawned').
  assert (Hevs : evs' = evs).
  { rewrite Htr, <- !app_assoc in Htr'. cbn [app] in Htr'.
    apply app_inv_head in Htr'. unfold construction_spawns in Htr'.
    apply app_inv_tail in Htr'. exact (eq_sym Htr'). }
  subst evs'. unfold serving in *. fields.
  do 3 eexists. split; [reflexivity|]. fields.
  split; [exact Hcfg|]. split; [exact Hmu|].
  split; [exact (Hst _ None _ eq_refl)|].
  split; [exact Hdb|]. split; [rewrite <- Hcfg; exact Hm|].
  split; [exact Htr'|]. split; [exact Hcount|]. split; [exact Hsp'|]. exact Hspawned'.
Qed.

(** X2.  With a number of attempts of zero or less, NewDatabaseManager
    fails whatever the server does: no connection is attempted, nothing is
    logged or started, and the error reports a failure to connect that has
    no cause. *)
Theorem NewDatabaseManager_without_attempts cfg w fuel :
  DatabaseRetryAttempts cfg <= 0 ->
  (1 <= fuel)%nat ->
  exists w',
    NewDatabaseManager env fuel cfg w =
      Some (None, Some (init_error (retry_error cfg None)), w') /\
    Cause (retry_error cfg None) = None /\
    trace w' = trace w /\
    dials w' = dials w /\
    spawned w' = spawned w.
Proof.
  intros HN Hfuel. destruct fuel as [|fuel]; [lia|].
  unfold NewDatabaseManager, connectWithRetry.
  rewrite loop_exit by (fields; lia).
  eexists. split; [reflexivity|]. destruct w; repeat split.
Qed.

(** X3.  When every attempt fails, the error connectWithRetry returns has
    the error of the last attempt as its cause and the configured number
    of attempts as its context; the retry count it leaves is that number,
    and neither [IsHealthy] nor the handle has been touched. *)
Theorem connectWithRetry_reports_last_failure dm w fuel :
  let cfg := config dm in
  let N := DatabaseRetryAttempts cfg in
  1 <= N -> N < max_int ->
  (forall i, target_error (DatabaseConnectTimeout cfg) (dial env i) <> None) ->
  (Z.to_nat N < fuel)%nat ->
  exists err dm' w',
    connectWithRetry env fuel (dm, w) = Ret (Some err) (dm', w') /\
    Cause err =
      target_error (DatabaseConnectTimeout cfg) (dial env (dials w + (Z.to_nat N - 1))) /\
    Cause err <> None /\
    Message err = "Failed to connect to database after retries" /\
    ContextOf err = [("retry_attempts", N)] /\
    RetryCount (healthStatus dm') = N /\
    IsHealthy (healthStatus dm') = IsHealthy (healthStatus dm) /\
    db dm' = db dm.
Proof.
  intros cfg N H1 Hmax Hfail Hfuel.
  set (n := Z.to_nat N).
  assert (Hf : (fuel = n + S (fuel - S n))%nat) by (unfold n in *; lia).
  unfold connectWithRetry. rewrite Hf.
  destruct (loop_failed_rounds_exact n (S (fuel - S n)) 1 None dm w)
    as (w1 & evs & Hrun & _);
    [lia | fold cfg; fold N; unfold n; lia | exact Hmax | intros; apply Hfail |].
  rewrite Hrun, loop_exit by (destruct dm; fields; subst N cfg; fields; unfold n; lia).
  destruct n as [|m] eqn:Hn; [unfold n in *; lia|].
  do 3 eexists. split; [reflexivity|].
  destruct dm as [d c h mm lc]; subst N cfg; fields. cbn [last_failure retried].
  replace (S m - 1)%nat with m by lia.
  repeat split; try reflexivity.
  - apply Hfail.
  - unfold set_RetryCount. fields. unfold n in *. lia.
Qed.




(** What no step of a manager in service changes: the handle, the retry
    count, and the number of connections opened. *)
Lemma step_frame s s' :
  serving s -> step env s s' ->
  db (fst s') = db (fst s) /\
  RetryCount (healthStatus (fst s')) = RetryCount (healthStatus (fst s)) /\
  dials (snd s') = dials (snd s) /\
  metrics (fst s') = metrics (fst s).
Proof.
  intros (Hmu & (g & sqlDB & Hdb & Hg) & Hm) Hstep.
  assert (Hmu' : mu (fst s) <> Locked) by (rewrite Hmu; discriminate).
  destruct Hstep as [[dm w] hs s' H|[dm w] hs s' H|[dm w] hs s' H|[dm w] s' H
                    |[dm w] m s' H|[dm w] r s' H|dm w d]; fields.
  - rewrite (HealthCheck_probe env dm w g sqlDB Hmu Hdb Hg) in H.
    inversion H; subst; clear H. unfold probed.
    destruct dm, w; fields.
    destruct (ping_result _ _); repeat split.
  - destruct (Z_lt_ge_dec (now w - LastCheck (healthStatus dm)) (10 * Second)) as [Hage|Hage].
    + rewrite (FastHealthCheck_fresh dm w Hmu' Hage) in H.
      inversion H; subst; clear H. destruct dm, w; repeat split.
    + rewrite (FastHealthCheck_stale dm w Hmu') in H by lia.
      inversion H; subst; clear H. destruct dm, w; repeat split.
  - unfold GetHealthStatus in H. rewrite (getHealthStatus_run dm w Hmu) in H.
    inversion H; subst; clear H. destruct dm, w; repeat split.
  - rewrite (updateMetrics_refreshes env dm w g sqlDB Hmu Hdb Hg) in H.
    inversion H; subst; clear H. destruct dm, w; repeat split.
  - rewrite (GetMetrics_run dm w Hmu') in H.
    inversion H; subst; clear H. destruct dm, w; repeat split.
  - rewrite (Close_pool env dm w g sqlDB Hmu Hdb Hg) in H.
    destruct (pool_close env (closes w)); inversion H; subst; clear H;
      destruct dm, w; repeat split.
  - destruct dm, w; repeat split.
Qed.

(** X6.  In every state of a manager built by NewDatabaseManager the retry
    count is 0: it is written during construction only, and construction
    succeeds by resetting it. *)
Theorem RetryCount_is_zero_in_service cfg s :
  reachable env cfg s -> RetryCount (healthStatus (fst s)) = 0.
Proof.
  induction 1 as [fuel w dm w' Hnew|s s' Hreach IH Hstep].
  - fields. rewrite (NewDatabaseManager_status fuel cfg w dm None w' Hnew). reflexivity.
  - destruct (reachable_serving env cfg s Hreach) as [Hs _].
    destruct (step_frame s s' Hs Hstep) as (_ & Hrc & _). congruence.
Qed.

(** X7.  A manager in service never reconnects: whatever is called on it
    and whatever the probes answer, the handle stays the one stored at
    construction and no connection is opened. *)
Theorem no_reconnection_in_service cfg s s' :
  reachable env cfg s -> step env s s' ->
  db (fst s') = db (fst s) /\
  dials (snd s') = dials (snd s) /\
  exists g sqlDB, db (fst s') = Some g /\ gorm_DB g = inl sqlDB.
Proof.
  intros Hreach Hstep.
  destruct (reachable_serving env cfg s Hreach) as [Hs _].
  destruct (step_frame s s' Hs Hstep) as (Hdb & _ & Hdials & _).
  split; [exact Hdb|]. split; [exact Hdials|].
  rewrite Hdb. apply Hs.
Qed.

(** X8.  When the handle does not give its pool, updateMetrics logs the
    failure and returns: the pool is not polled and GetMetrics returns
    after it what it returned before. *)
Theorem updateMetrics_keeps_snapshot_on_error dm w g err :
  mu dm = Unlocked -> db dm = Some g -> gorm_DB g = inr err ->
  exists m w1 w2 w3,
    GetMetrics (dm, w) = Ret m (dm, w1) /\
    updateMetrics env (dm, w1) = Ret tt (dm, w2) /\
    GetMetrics (dm, w2) = Ret m (dm, w3) /\
    trace w2 = trace w1 ++ [EvLogError "Failed to get SQL DB for metrics"] /\
    polls w2 = polls w /\
    heap w2 = heap w.
Proof.
  intros Hmu Hdb Hg.
  assert (Hmu' : mu dm <> Locked) by (rewrite Hmu; discriminate).
  destruct w as [t tr sp di pr po cl hp nl].
  rewrite (GetMetrics_run dm _ Hmu').
  do 4 eexists. split; [reflexivity|].
  rewrite (updateMetrics_stale env dm _ g err Hmu Hdb Hg).
  split; [reflexivity|].
  rewrite (GetMetrics_run dm _ Hmu').
  fields. repeat split.
Qed.

(** X9.  On a manager without handle, Close returns nil and closes
    nothing, and GetDB returns nil; HealthCheck and updateMetrics panic on
    the nil handle, updateMetrics with its lock released by the deferred
    unlock. *)
Theorem methods_on_nil_handle dm w :
  mu dm = Unlocked -> db dm = None ->
  Close env (dm, w) = Ret None (dm, w) /\
  GetDB (dm, w) = Ret None (dm, w) /\
  HealthCheck env (dm, w) = Panic (dm, w) /\
  updateMetrics env (dm, w) = Panic (dm, w).
Proof.
  intros Hmu Hdb. destruct dm as [d c h m lc], w as [t tr sp di pr po cl hp nl].
  fields. subst. repeat split.
Qed.

(** The result of Close for the answer [o] of the pool. *)
Lemma Close_result dm w g sqlDB :
  mu dm = Unlocked -> db dm = Some g -> gorm_DB g = inl sqlDB ->
  exists log,
    Close env (dm, w) =
    Ret (option_map (close_error "Failed to close database connection")
           (pool_close env (closes w)))
      (dm, set_closes (S (closes w)) (set_trace (trace w ++ [EvClose sqlDB; log]) w)).
Proof.
  intros Hmu Hdb Hg. rewrite (Close_pool env dm w g sqlDB Hmu Hdb Hg).
  destruct (pool_close env (closes w)); eexists; reflexivity.
Qed.

(** X10.  Close does not forget the handle: after it GetDB still returns
    the handle, and a second Close closes the pool a second time and
    returns whatever that second close answers. *)
Theorem Close_twice_closes_twice dm w g sqlDB :
  mu dm = Unlocked -> db dm = Some g -> gorm_DB g = inl sqlDB ->
  exists w1 w2 log1 log2,
    Close env (dm, w) =
      Ret (option_map (close_error "Failed to close database connection")
             (pool_close env (closes w))) (dm, w1) /\
    GetDB (dm, w1) = Ret (Some g) (dm, w1) /\
    Close env (dm, w1) =
      Ret (option_map (close_error "Failed to close database connection")
             (pool_close env (S (closes w)))) (dm, w2) /\
    trace w2 = trace w ++ [EvClose sqlDB; log1; EvClose sqlDB; log2] /\
    closes w2 = S (S (closes w)).
Proof.
  intros Hmu Hdb Hg.
  destruct (Close_result dm w g sqlDB Hmu Hdb Hg) as (log1 & H1).
  set (w1 := set_closes _ _) in H1.
  destruct (Close_result dm w1 g sqlDB Hmu Hdb Hg) as (log2 & H2).
  exists w1, (set_closes (S (closes w1)) (set_trace (trace w1 ++ [EvClose sqlDB; log2]) w1)),
    log1, log2.
  split; [exact H1|].
  split; [unfold GetDB, get_db; rewrite Hdb; reflexivity|].
  split; [rewrite H2; subst w1; destruct w; reflexivity|].
  subst w1. destruct w; fields. rewrite <- app_assoc. split; reflexivity.
Qed.


(** X11.  FastHealthCheck does not remember that it has started a check:
    as long as no check has recorded a new status, every call on a stale
    status starts one more HealthCheck routine and returns the same cached
    status. *)
Theorem FastHealthCheck_starts_a_check_per_call dm w (n : nat) :
  mu dm <> Locked ->
  10 * Second <= now w - LastCheck (healthStatus dm) ->
  exists w',
    calls FastHealthCheck n (dm, w) = Ret (repeat (healthStatus dm) n) (dm, w') /\
    spawned w' = spawned w ++ repeat Task_HealthCheck n /\
    probes w' = probes w /\
    now w' = now w.
Proof.
  intros Hmu. revert w. induction n as [|n IH]; intros w Hage.
  - exists w. cbn. rewrite app_nil_r. repeat split.
  - cbn [calls]. unfold bind at 1. rewrite (FastHealthCheck_stale dm w Hmu Hage).
    set (w1 := set_spawned _ _).
    destruct (IH w1) as (w' & Hrun & Hsp & Hpr & Hnow).
    { subst w1. destruct w; fields. exact Hage. }
    exists w'. unfold bind at 1. rewrite Hrun. unfold ret.
    split; [reflexivity|].
    subst w1. destruct w; fields. rewrite Hsp, <- app_assoc. repeat split; assumption.
Qed.

(** X12.  Refreshes do not accumulate: after any number of calls of
    updateMetrics in a row (at least one), as many polls have been made
    and the snapshot is the one of the latest poll, with the configured
    bounds; no other cell of the store has been written. *)
Theorem updateMetrics_keeps_latest_poll dm w g sqlDB (n : nat) :
  mu dm = Unlocked -> db dm = Some g -> gorm_DB g = inl sqlDB ->
  exists w',
    calls (updateMetrics env) (S n) (dm, w) = Ret (repeat tt (S n)) (dm, w') /\
    polls w' = (polls w + S n)%nat /\
    heap w' (metrics dm) = refreshed (config dm) (pool_stats env (polls w + n)) /\
    (forall l, l <> metrics dm -> heap w' l = heap w l).
Proof.
  intros Hmu Hdb Hg. revert w. induction n as [|n IH]; intros w.
  - cbn [calls]. unfold bind at 1.
    rewrite (updateMetrics_refreshes env dm w g sqlDB Hmu Hdb Hg).
    eexists. split; [reflexivity|]. destruct w; fields.
    rewrite Nat.add_0_r, store_same.
    split; [lia|]. split; [reflexivity|]. intros l Hl. apply store_other. exact Hl.
  - change (calls (updateMetrics env) (S (S n)))
      with (a <- updateMetrics env ;; l <- calls (updateMetrics env) (S n) ;; ret (a :: l)).
    unfold bind at 1.
    rewrite (updateMetrics_refreshes env dm w g sqlDB Hmu Hdb Hg).
    set (w1 := set_polls _ _).
    destruct (IH w1) as (w' & Hrun & Hpo & Hheap & Hother).
    exists w'. unfold bind at 1. rewrite Hrun. unfold ret.
    split; [reflexivity|].
    subst w1. destruct w; fields.
    split; [lia|].
    split; [rewrite Hheap; do 2 f_equal; lia|].
    intros l Hl. rewrite (Hother l Hl). apply store_other. exact Hl.
Qed.


(** X14.  On a connection that opens and gives its pool, connect applies
    the four configured pool settings and then probes the pool under the
    connect timeout.  If the probe fails, its error is returned and the
    manager is as before: the handle is not stored and the metrics are not
    refreshed.  If it succeeds, the handle is stored. *)
Theorem connect_configures_then_probes dm w g p sqlDB :
  let cfg := config dm in
  mu dm = Unlocked ->
  dial env (dials w) = Opened g p -> gorm_DB g = inl sqlDB ->
  exists dm' w' evs level,
    connect env (dm, w) = Ret (ping_result (DatabaseConnectTimeout cfg) p) (dm', w') /\
    trace w' =
      trace w ++
      [EvOpen (ConnectionString cfg) level;
       EvSetMaxOpenConns (DatabaseMaxOpenConns cfg);
       EvSetMaxIdleConns (DatabaseMaxIdleConns cfg);
       EvSetConnMaxLifetime (DatabaseConnMaxLifetime cfg);
       EvSetConnMaxIdleTime (DatabaseConnMaxIdleTime cfg);
       EvPing sqlDB (DatabaseConnectTimeout cfg)] ++ evs /\
    level = (if IsDebugMode cfg then gormlogger_Info else gormlogger_Error) /\
    match ping_result (DatabaseConnectTimeout cfg) p with
    | Some _ => dm' = dm /\ evs = [] /\ polls w' = polls w /\ heap w' = heap w
    | None =>
        dm' = set_db (Some g) dm /\
        evs = [EvStats sqlDB; EvWriteMetrics Locked] /\
        polls w' = S (polls w)
    end.
Proof.
  intros cfg Hmu Hdial Hg. subst cfg.
  destruct dm as [d c h m lc], w as [t tr sp di pr po cl hp nl]. fields. subst m.
  unfold connect. unfold bind at 1. cbn -[updateMetrics].
  unfold bind at 1. cbn -[updateMetrics]. rewrite Hdial, Hg.
  unfold PingContext, ping_result, bind. cbn -[updateMetrics].
  destruct (Z.max 0 (rtt p) <? DatabaseConnectTimeout c); cbn -[updateMetrics].
  - destruct (answer p) as [e|].
    + do 4 eexists. split; [reflexivity|]. fields. rewrite <- !app_assoc.
      split; [reflexivity|]. repeat split.
    + erewrite updateMetrics_refreshes by (fields; eauto).
      do 4 eexists. split; [reflexivity|]. fields. rewrite <- !app_assoc.
      split; [reflexivity|]. repeat split.
  - do 4 eexists. split; [reflexivity|]. fields. rewrite <- !app_assoc.
    split; [reflexivity|]. repeat split.
Qed.



(** X15.  HealthCheck probes without holding the mutex: called while
    another routine holds it (readers or a writer), it sends its probe at
    once and waits for the mutex only afterwards, to record the result;
    until then the status is untouched. *)
Theorem HealthCheck_probes_outside_lock dm w g sqlDB :
  mu dm <> Unlocked -> db dm = Some g -> gorm_DB g = inl sqlDB ->
  exists w',
    HealthCheck env (dm, w) = Blocked (dm, w') /\
    trace w' = trace w ++ [EvPing sqlDB (DatabaseHealthTimeout (config dm))] /\
    probes w' = S (probes w) /\
    now w <= now w'.
Proof.
  intros Hmu Hdb Hg. unfold HealthCheck.
  unfold bind at 1. unfold time_Now at 1. destruct dm as [d c h m lc]; fields; subst.
  unfold bind at 1, get_config at 1. unfold bind at 1, dm_db_DB, bind at 1, get_db. fields.
  cbn [ret]. rewrite Hg. unfold bind at 1, next_probe.
  unfold bind at 1. rewrite PingContext_run.
  destruct w as [t tr sp di pr po cl hp nl]. unfold probed. fields.
  destruct (ping_result (DatabaseHealthTimeout c) (probe env pr));
    unfold bind, time_Since, updateHealthStatus, bind, mu_Lock; fields;
    (destruct m as [|n|]; [congruence| |]);
    (eexists; split; [reflexivity|]; fields; repeat split; lia).
Qed.

End MoreProperties.

(** ** The text matching of the error handler *)

Lemma string_length_append (s1 s2 : string) :
  String.length (s1 ++ s2)%string = (String.length s1 + String.length s2)%nat.
Proof. induction s1 as [|c s1 IH]; cbn; [reflexivity | now rewrite IH]. Qed.

Lemma string_append_empty_r (s : string) : (s ++ EmptyString)%string = s.
Proof. induction s as [|c s IH]; cbn; [reflexivity | now rewrite IH]. Qed.

Lemma string_append_assoc (s1 s2 s3 : string) :
  ((s1 ++ s2) ++ s3)%string = (s1 ++ s2 ++ s3)%string.
Proof. induction s1 as [|c s1 IH]; cbn; [reflexivity | now rewrite IH]. Qed.

Lemma string_length_zero (s : string) : String.length s = 0%nat -> s = EmptyString.
Proof. destruct s; [reflexivity | discriminate]. Qed.

(** The slice [s[0:len(sub)]] of a string that starts with [sub]. *)
Lemma substring_prefix (sub post : string) :
  substring 0 (String.length sub) (sub ++ post) = sub.
Proof.
  induction sub as [|c sub IH]; cbn.
  - destruct post; reflexivity.
  - now rewrite IH.
Qed.

(** Slicing after a prefix. *)
Lemma substring_skip (pre t : string) (n : nat) :
  substring (String.length pre) n (pre ++ t) = substring 0 n t.
Proof. induction pre as [|c pre IH]; cbn; [reflexivity | exact IH]. Qed.

(** A slice equal to [sub] starts with [sub]. *)
Lemma substring_0_occurs (sub : string) : forall s,
  substring 0 (String.length sub) s = sub -> exists post, s = (sub ++ post)%string.
Proof.
  induction sub as [|c sub IH]; intros s H.
  - exists s. reflexivity.
  - destruct s as [|c' s]; cbn in H; [discriminate|].
    inversion H as [[Hc Hs]]. destruct (IH s Hs) as [post Hpost].
    exists post. cbn. rewrite Hs. congruence.
Qed.

Lemma substring_occurs (i : nat) : forall sub s,
  substring i (String.length sub) s = sub -> occurs sub s.
Proof.
  induction i as [|i IH]; intros sub s H.
  - destruct (substring_0_occurs sub s H) as [post Hpost].
    exists EmptyString, post. exact Hpost.
  - destruct s as [|c s].
    + cbn in H. subst sub. exists EmptyString, EmptyString. reflexivity.
    + cbn in H. destruct (IH sub s H) as (pre & post & Hs).
      exists (String c pre), post. cbn. now rewrite Hs.
Qed.

Lemma containsSubstring_loop_true count : forall i s sub,
  containsSubstring_loop count i s sub = true <->
  exists j, (i <= j < i + count)%nat /\ substring j (String.length sub) s = sub.
Proof.
  induction count as [|count IH]; intros i s sub; cbn [containsSubstring_loop].
  - split; [discriminate | intros (j & Hj & _); lia].
  - destruct (String.eqb_spec (substring i (String.length sub) s) sub) as [Heq|Hne].
    + split; [|reflexivity]. intros _. exists i. split; [lia | exact Heq].
    + rewrite IH. split; intros (j & Hj & Hs).
      * exists j. split; [lia | exact Hs].
      * exists j. split; [|exact Hs].
        assert (j <> i) by (intros ->; contradiction). lia.
Qed.

(** containsSubstring answers true only when [substr] occurs in [s]. *)
Lemma containsSubstring_sound (s sub : string) :
  containsSubstring s sub = true -> occurs sub s.
Proof.
  unfold containsSubstring.
  destruct (Nat.eqb_spec (String.length sub) 0) as [H0|H0].
  - intros _. rewrite (string_length_zero sub H0). exists EmptyString, s. reflexivity.
  - destruct (Nat.ltb_spec (String.length s) (String.length sub)) as [Hlt|Hge];
      [discriminate|].
    rewrite containsSubstring_loop_true. intros (j & _ & Hs).
    exact (substring_occurs j sub s Hs).
Qed.

(** containsSubstring answers true whenever [substr] occurs in [s]. *)
Lemma containsSubstring_complete (s sub : string) :
  occurs sub s -> containsSubstring s sub = true.
Proof.
  intros (pre & post & Hs). unfold containsSubstring.
  destruct (Nat.eqb_spec (String.length sub) 0) as [H0|H0]; [reflexivity|].
  assert (Hlen : String.length s =
                 (String.length pre + (String.length sub + String.length post))%nat)
    by (rewrite Hs, !string_length_append; reflexivity).
  destruct (Nat.ltb_spec (String.length s) (String.length sub)) as [Hlt|Hge]; [lia|].
  apply containsSubstring_loop_true. exists (String.length pre). split; [lia|].
  rewrite Hs, substring_skip. apply substring_prefix.
Qed.

(** A string in which a string of the same length occurs is that string. *)
Lemma occurs_same_length (s sub : string) :
  occurs sub s -> String.length s = String.length sub -> s = sub.
Proof.
  intros (pre & post & Hs) Hlen.
  rewrite Hs, !string_length_append in Hlen.
  assert (Hpre : pre = EmptyString) by (apply string_length_zero; lia).
  assert (Hpost : post = EmptyString) by (apply string_length_zero; lia).
  subst. cbn. apply string_append_empty_r.
Qed.

Lemma containsIgnoreCase_eq (s sub : string) :
  containsIgnoreCase s sub = containsSubstring s sub.
Proof.
  unfold containsIgnoreCase.
  destruct (Nat.leb_spec (String.length sub) (String.length s)) as [Hle|Hgt].
  - destruct (String.eqb_spec s sub) as [Heq|Hne].
    + symmetry. apply containsSubstring_complete. subst.
      exists EmptyString, EmptyString. cbn. now rewrite string_append_empty_r.
    + destruct (Nat.ltb_spec (String.length sub) (String.length s)) as [Hlt|Hge].
      * destruct (String.eqb_spec (substring 0 (String.length sub) s) sub) as [Hp|_].
        { symmetry. apply containsSubstring_complete.
          exact (substring_occurs 0 sub s Hp). }
        destruct (String.eqb_spec
                    (substring (String.length s - String.length sub) (String.length sub) s)
                    sub) as [Hs|_]; [|reflexivity].
        symmetry. apply containsSubstring_complete.
        exact (substring_occurs _ sub s Hs).
      * destruct (containsSubstring s sub) eqn:Hc; [|reflexivity].
        exfalso. apply Hne. apply occurs_same_length; [|lia].
        exact (containsSubstring_sound s sub Hc).
  - destruct (containsSubstring s sub) eqn:Hc; [|reflexivity].
    destruct (containsSubstring_sound s sub Hc) as (pre & post & Hs).
    rewrite Hs, !string_length_append in Hgt. lia.
Qed.

Lemma isGORMError_loop_true (errStr : string) (patterns : list string) :
  isGORMError_loop errStr patterns = true <->
  exists pattern, In pattern patterns /\ containsIgnoreCase errStr pattern = true.
Proof.
  induction patterns as [|p rest IH]; cbn [isGORMError_loop].
  - split; [discriminate | intros (p & [] & _)].
  - destruct (containsIgnoreCase errStr p) eqn:Hp.
    + split; [|reflexivity]. intros _. exists p. split; [left; reflexivity | exact Hp].
    + rewrite IH. split; intros (q & Hq & Hc).
      * exists q. split; [right; exact Hq | exact Hc].
      * destruct Hq as [->|Hq]; [congruence|]. exists q. split; assumption.
Qed.

(** X16.  containsSubstring answers true exactly when [substr] occurs in
    [s] byte for byte: for the empty [substr] always, and never for a
    [substr] longer than [s]. *)
Theorem containsSubstring_spec (s sub : string) :
  (containsSubstring s sub = true <-> occurs sub s) /\
  containsSubstring s EmptyString = true /\
  ((String.length s < String.length sub)%nat -> containsSubstring s sub = false).
Proof.
  split; [split; [apply containsSubstring_sound | apply containsSubstring_complete]|].
  split; [reflexivity|].
  intros Hlt. destruct (containsSubstring s sub) eqn:Hc; [|reflexivity].
  destruct (containsSubstring_sound s sub Hc) as (pre & post & Hs).
  rewrite Hs, !string_length_append in Hlt. lia.
Qed.

(** X17.  containsIgnoreCase does not ignore case: it returns what
    containsSubstring returns, that is whether [substr] occurs in [s] byte
    for byte; on two strings of the same length it is equality. *)
Theorem containsIgnoreCase_is_case_sensitive (s sub : string) :
  containsIgnoreCase s sub = containsSubstring s sub /\
  (containsIgnoreCase s sub = true <-> occurs sub s) /\
  (String.length s = String.length sub ->
   (containsIgnoreCase s sub = true <-> s = sub)).
Proof.
  split; [apply containsIgnoreCase_eq|].
  rewrite containsIgnoreCase_eq.
  split; [split; [apply containsSubstring_sound | apply containsSubstring_complete]|].
  intros Hlen. split.
  - intros Hc. apply occurs_same_length; [|exact Hlen].
    exact (containsSubstring_sound s sub Hc).
  - intros ->. apply containsSubstring_complete.
    exists EmptyString, EmptyString. cbn. now rewrite string_append_empty_r.
Qed.

(** X18.  isGORMError answers true exactly when the text of the error
    contains, in lower case as written, one of: database, sql, connection,
    transaction, constraint, foreign key, duplicate key (the pattern
    "unique constraint" of the list adds nothing to "constraint"). *)
Theorem isGORMError_spec (err : error) :
  isGORMError err = true <->
  exists pattern,
    In pattern ["database"; "sql"; "connection"; "transaction"; "constraint";
                "foreign key"; "duplicate key"] /\
    occurs pattern (Error err).
Proof.
  unfold isGORMError. rewrite isGORMError_loop_true. split.
  - intros (p & Hin & Hc). rewrite containsIgnoreCase_eq in Hc.
    apply containsSubstring_sound in Hc.
    cbn in Hin.
    destruct Hin as [<-|[<-|[<-|[<-|[<-|[<-|[<-|[<-|[]]]]]]]]];
      try (eexists; split; [|exact Hc]; cbn; tauto).
    exists "constraint". split; [cbn; tauto|].
    destruct Hc as (pre & post & Hs).
    exists (pre ++ "unique ")%string, post.
    rewrite Hs, string_append_assoc. reflexivity.
  - intros (p & Hin & Hoc). exists p. split.
    + cbn in Hin |- *. tauto.
    + rewrite containsIgnoreCase_eq. apply containsSubstring_complete. exact Hoc.
Qed.

(** ** The further properties on the scenarios *)

Lemma NewDatabaseManager_builds_on_success_witness :
  exists dm w' evs,
    NewDatabaseManager env_flaky 3 cfg_default w_start = Some (Some dm, None, w') /\
    healthStatus dm = built_status /\
    count_attempts evs = 3%nat /\
    trace w' = trace w_start ++ evs ++ construction_spawns /\
    spawned w' = [Task_startHealthCheck; Task_startMetricsCollection].
Proof.
  destruct (NewDatabaseManager_builds_on_success env_flaky cfg_default w_start 3 3)
    as (dm & w' & evs & Hnew & _ & _ & Hst & _ & _ & Htr & Hcount & _ & Hsp).
  - lia.
  - vm_compute. discriminate.
  - vm_compute. discriminate.
  - intros j Hj. assert (Hj' : j = 1%nat \/ j = 2%nat) by lia.
    destruct Hj' as [->| ->]; vm_compute; discriminate.
  - vm_compute. reflexivity.
  - lia.
  - exists dm, w', evs. repeat split; assumption.
Defined.

Lemma NewDatabaseManager_without_attempts_witness :
  exists w',
    NewDatabaseManager env_up 1 cfg_no_retry w_start =
      Some (None, Some (init_error (retry_error cfg_no_retry None)), w') /\
    Cause (retry_error cfg_no_retry None) = None /\
    trace w' = trace w_start /\
    dials w' = dials w_start /\
    spawned w' = spawned w_start.
Proof.
  apply (NewDatabaseManager_without_attempts env_up cfg_no_retry w_start 1).
  - vm_compute. discriminate.
  - lia.
Defined.

Lemma connectWithRetry_reports_last_failure_witness :
  exists err dm' w',
    connectWithRetry env_down 4 (fresh cfg_default, w_start) = Ret (Some err) (dm', w') /\
    Cause err = Some refused /\
    ContextOf err = [("retry_attempts", 3)] /\
    RetryCount (healthStatus dm') = 3.
Proof.
  destruct (connectWithRetry_reports_last_failure env_down (fresh cfg_default) w_start 4)
    as (err & dm' & w' & Hrun & Hcause & _ & _ & Hctx & Hrc & _).
  - vm_compute. discriminate.
  - vm_compute. reflexivity.
  - intros i. vm_compute. discriminate.
  - vm_compute. lia.
  - exists err, dm', w'. repeat split; assumption.
Defined.



Lemma RetryCount_is_zero_in_service_witness :
  RetryCount (healthStatus (fst built)) = 0.
Proof.
  apply (RetryCount_is_zero_in_service env_up cfg_default (fst built, snd built)).
  exact built_reachable.
Defined.

Lemma built_checked_step : step env_up (fst built, snd built) checked.
Proof. eapply step_HealthCheck. vm_compute. reflexivity. Defined.

Lemma no_reconnection_in_service_witness :
  db (fst checked) = db (fst built) /\
  dials (snd checked) = dials (snd built) /\
  exists g sqlDB, db (fst checked) = Some g /\ gorm_DB g = inl sqlDB.
Proof.
  apply (no_reconnection_in_service env_up cfg_default (fst built, snd built) checked).
  - exact built_reachable.
  - exact built_checked_step.
Defined.

Lemma updateMetrics_keeps_snapshot_on_error_witness :
  exists m w1 w2 w3,
    GetMetrics (broken cfg_default, w_start) = Ret m (broken cfg_default, w1) /\
    updateMetrics env_up (broken cfg_default, w1) = Ret tt (broken cfg_default, w2) /\
    GetMetrics (broken cfg_default, w2) = Ret m (broken cfg_default, w3) /\
    trace w2 = trace w1 ++ [EvLogError "Failed to get SQL DB for metrics"] /\
    polls w2 = polls w_start /\
    heap w2 = heap w_start.
Proof.
  apply (updateMetrics_keeps_snapshot_on_error env_up (broken cfg_default) w_start
           pool_broken (errorString "invalid db")); reflexivity.
Defined.

Lemma methods_on_nil_handle_witness :
  Close env_up (fresh cfg_default, w_start) = Ret None (fresh cfg_default, w_start) /\
  GetDB (fresh cfg_default, w_start) = Ret None (fresh cfg_default, w_start) /\
  HealthCheck env_up (fresh cfg_default, w_start) = Panic (fresh cfg_default, w_start) /\
  updateMetrics env_up (fresh cfg_default, w_start) = Panic (fresh cfg_default, w_start).
Proof.
  apply (methods_on_nil_handle env_up (fresh cfg_default) w_start); reflexivity.
Defined.

Lemma Close_twice_closes_twice_witness :
  exists w1 w2 log1 log2,
    Close env_blip (connected cfg_default, w_start) = Ret None (connected cfg_default, w1) /\
    GetDB (connected cfg_default, w1) = Ret (Some pool0) (connected cfg_default, w1) /\
    Close env_blip (connected cfg_default, w1) =
      Ret (Some (close_error "Failed to close database connection"
                   (errorString "sql: database is closed")))
        (connected cfg_default, w2) /\
    trace w2 = trace w_start ++ [EvClose 0%nat; log1; EvClose 0%nat; log2] /\
    closes w2 = 2%nat.
Proof.
  apply (Close_twice_closes_twice env_blip (connected cfg_default) w_start pool0 0%nat);
    reflexivity.
Defined.

Lemma FastHealthCheck_starts_a_check_per_call_witness :
  exists w',
    calls FastHealthCheck 3 (fresh cfg_default, w_start) =
      Ret (repeat (healthStatus (fresh cfg_default)) 3) (fresh cfg_default, w') /\
    spawned w' = [Task_HealthCheck; Task_HealthCheck; Task_HealthCheck] /\
    probes w' = 0%nat /\
    now w' = now w_start.
Proof.
  apply (FastHealthCheck_starts_a_check_per_call (fresh cfg_default) w_start 3).
  - discriminate.
  - vm_compute. discriminate.
Defined.

Lemma updateMetrics_keeps_latest_poll_witness :
  exists w',
    calls (updateMetrics env_blip) 3 (connected cfg_default, w_start) =
      Ret [tt; tt; tt] (connected cfg_default, w') /\
    polls w' = 3%nat /\
    heap w' 0%nat = mkConnectionMetrics 3 3 2 1 2 0 25 5 /\
    (forall l, l <> 0%nat -> heap w' l = heap w_start l).
Proof.
  apply (updateMetrics_keeps_latest_poll env_blip (connected cfg_default) w_start
           pool0 0%nat 2); reflexivity.
Defined.


Lemma connect_configures_then_probes_witness :
  exists dm' w' evs level,
    connect env_up (fresh cfg_default, w_start) = Ret None (dm', w') /\
    trace w' =
      trace w_start ++
      [EvOpen "host=localhost dbname=app" level; EvSetMaxOpenConns 25;
       EvSetMaxIdleConns 5; EvSetConnMaxLifetime (300 * Second);
       EvSetConnMaxIdleTime (60 * Second); EvPing 0%nat (30 * Second)] ++ evs /\
    level = gormlogger_Error /\
    dm' = set_db (Some pool0) (fresh cfg_default) /\
    evs = [EvStats 0%nat; EvWriteMetrics Locked] /\
    polls w' = 1%nat.
Proof.
  apply (connect_configures_then_probes env_up (fresh cfg_default) w_start pool0 prompt
           0%nat); reflexivity.
Defined.

Lemma HealthCheck_probes_outside_lock_witness :
  exists w',
    HealthCheck env_up (set_mu (RLocked 0) (connected cfg_default), w_start) =
      Blocked (set_mu (RLocked 0) (connected cfg_default), w') /\
    trace w' = trace w_start ++ [EvPing 0%nat (5 * Second)] /\
    probes w' = 1%nat /\
    now w_start <= now w'.
Proof.
  apply (HealthCheck_probes_outside_lock env_up (set_mu (RLocked 0) (connected cfg_default))
           w_start pool0 0%nat).
  - discriminate.
  - reflexivity.
  - reflexivity.
Defined.
